(** * BRiCk / cpp2v: the module builder and the local-declaration printer

    A shallow embedding of [src/ModuleBuilder.cpp] and
    [src/PrintLocalDecl.cpp], together with the properties of the
    traversal (classification, partitioning, cycle guard, gating) and of
    the printer that the specification states.

    The clang declaration graph is owned by the frontend; here it is a
    finite store from declaration references to nodes.  A pointer to a
    declaration and the value of [Decl::getID] are identified. *)

From Stdlib Require Import ZArith String List Bool Lia.
From stdpp Require Import base decidable option list strings gmap sets.

Local Open Scope Z_scope.

(** ** The declaration classes of the frontend

    The C and C++ classes of clang's [DeclNodes], abstract ones
    included: the visitor's default for a class forwards to the handler
    of its base class, so the chain matters. *)

Inductive DeclClass : Set :=
| Decl
| TranslationUnitDecl
| PragmaCommentDecl
| ExternCContextDecl
| NamedDecl
| NamespaceDecl
| UsingDirectiveDecl
| NamespaceAliasDecl
| LabelDecl
| TypeDecl
| TypedefNameDecl
| TypedefDecl
| TypeAliasDecl
| UnresolvedUsingTypenameDecl
| TagDecl
| EnumDecl
| RecordDecl
| CXXRecordDecl
| ClassTemplateSpecializationDecl
| ClassTemplatePartialSpecializationDecl
| TemplateTypeParmDecl
| ValueDecl
| EnumConstantDecl
| UnresolvedUsingValueDecl
| IndirectFieldDecl
| BindingDecl
| DeclaratorDecl
| FieldDecl
| FunctionDecl
| CXXDeductionGuideDecl
| CXXMethodDecl
| CXXConstructorDecl
| CXXDestructorDecl
| CXXConversionDecl
| VarDecl
| VarTemplateSpecializationDecl
| VarTemplatePartialSpecializationDecl
| ImplicitParamDecl
| ParmVarDecl
| DecompositionDecl
| NonTypeTemplateParmDecl
| TemplateDecl
| RedeclarableTemplateDecl
| FunctionTemplateDecl
| ClassTemplateDecl
| VarTemplateDecl
| TypeAliasTemplateDecl
| TemplateTemplateParmDecl
| BuiltinTemplateDecl
| ConceptDecl
| UsingDecl
| UsingPackDecl
| UsingShadowDecl
| ConstructorUsingShadowDecl
| LinkageSpecDecl
| ExportDecl
| FileScopeAsmDecl
| AccessSpecDecl
| FriendDecl
| FriendTemplateDecl
| StaticAssertDecl
| BlockDecl
| CapturedDecl
| ImportDecl
| EmptyDecl.

(** The direct base class; [Decl] is the root. *)
Definition base (k : DeclClass) : option DeclClass :=
  match k with
  | Decl => None
  | TranslationUnitDecl | PragmaCommentDecl | ExternCContextDecl
  | NamedDecl | LinkageSpecDecl | ExportDecl | FileScopeAsmDecl
  | AccessSpecDecl | FriendDecl | FriendTemplateDecl | StaticAssertDecl
  | BlockDecl | CapturedDecl | ImportDecl | EmptyDecl => Some Decl
  | NamespaceDecl | UsingDirectiveDecl | NamespaceAliasDecl | LabelDecl
  | TypeDecl | ValueDecl | TemplateDecl | UsingDecl | UsingPackDecl
  | UsingShadowDecl => Some NamedDecl
  | ConstructorUsingShadowDecl => Some UsingShadowDecl
  | TypedefNameDecl | UnresolvedUsingTypenameDecl | TagDecl
  | TemplateTypeParmDecl => Some TypeDecl
  | TypedefDecl | TypeAliasDecl => Some TypedefNameDecl
  | EnumDecl | RecordDecl => Some TagDecl
  | CXXRecordDecl => Some RecordDecl
  | ClassTemplateSpecializationDecl => Some CXXRecordDecl
  | ClassTemplatePartialSpecializationDecl =>
      Some ClassTemplateSpecializationDecl
  | EnumConstantDecl | UnresolvedUsingValueDecl | IndirectFieldDecl
  | BindingDecl | DeclaratorDecl => Some ValueDecl
  | FieldDecl | FunctionDecl | VarDecl | NonTypeTemplateParmDecl =>
      Some DeclaratorDecl
  | CXXDeductionGuideDecl | CXXMethodDecl => Some FunctionDecl
  | CXXConstructorDecl | CXXDestructorDecl | CXXConversionDecl =>
      Some CXXMethodDecl
  | VarTemplateSpecializationDecl | ImplicitParamDecl | ParmVarDecl
  | DecompositionDecl => Some VarDecl
  | VarTemplatePartialSpecializationDecl =>
      Some VarTemplateSpecializationDecl
  | RedeclarableTemplateDecl | TemplateTemplateParmDecl
  | BuiltinTemplateDecl | ConceptDecl => Some TemplateDecl
  | FunctionTemplateDecl | ClassTemplateDecl | VarTemplateDecl
  | TypeAliasTemplateDecl => Some RedeclarableTemplateDecl
  end.

(** Equality of classes, as a rank comparison (the classes are an
    enumeration). *)
Definition class_rank (k : DeclClass) : positive :=
  match k with
  | Decl => 1 | TranslationUnitDecl => 2 | PragmaCommentDecl => 3
  | ExternCContextDecl => 4 | NamedDecl => 5 | NamespaceDecl => 6
  | UsingDirectiveDecl => 7 | NamespaceAliasDecl => 8 | LabelDecl => 9
  | TypeDecl => 10 | TypedefNameDecl => 11 | TypedefDecl => 12
  | TypeAliasDecl => 13 | UnresolvedUsingTypenameDecl => 14
  | TagDecl => 15 | EnumDecl => 16 | RecordDecl => 17
  | CXXRecordDecl => 18 | ClassTemplateSpecializationDecl => 19
  | ClassTemplatePartialSpecializationDecl => 20
  | TemplateTypeParmDecl => 21 | ValueDecl => 22
  | EnumConstantDecl => 23 | UnresolvedUsingValueDecl => 24
  | IndirectFieldDecl => 25 | BindingDecl => 26 | DeclaratorDecl => 27
  | FieldDecl => 28 | FunctionDecl => 29 | CXXDeductionGuideDecl => 30
  | CXXMethodDecl => 31 | CXXConstructorDecl => 32
  | CXXDestructorDecl => 33 | CXXConversionDecl => 34 | VarDecl => 35
  | VarTemplateSpecializationDecl => 36
  | VarTemplatePartialSpecializationDecl => 37
  | ImplicitParamDecl => 38 | ParmVarDecl => 39
  | DecompositionDecl => 40 | NonTypeTemplateParmDecl => 41
  | TemplateDecl => 42 | RedeclarableTemplateDecl => 43
  | FunctionTemplateDecl => 44 | ClassTemplateDecl => 45
  | VarTemplateDecl => 46 | TypeAliasTemplateDecl => 47
  | TemplateTemplateParmDecl => 48 | BuiltinTemplateDecl => 49
  | ConceptDecl => 50 | UsingDecl => 51 | UsingPackDecl => 52
  | UsingShadowDecl => 53 | ConstructorUsingShadowDecl => 54
  | LinkageSpecDecl => 55 | ExportDecl => 56 | FileScopeAsmDecl => 57
  | AccessSpecDecl => 58 | FriendDecl => 59 | FriendTemplateDecl => 60
  | StaticAssertDecl => 61 | BlockDecl => 62 | CapturedDecl => 63
  | ImportDecl => 64 | EmptyDecl => 65
  end%positive.

Definition class_eqb (a b : DeclClass) : bool :=
  Pos.eqb (class_rank a) (class_rank b).

(** The length of the longest base chain, [Decl] to
    [ClassTemplatePartialSpecializationDecl]. *)
Definition chain_depth : nat := 8.

Fixpoint inherits (n : nat) (k target : DeclClass) : bool :=
  if class_eqb k target then true
  else match n, base k with
       | S n', Some b => inherits n' b target
       | _, _ => false
       end.

(** [isa<T>(decl)], on the dynamic class of [decl]. *)
Definition isa (target k : DeclClass) : bool :=
  inherits chain_depth k target.

(** Modelled from the spec: [ConstDeclVisitorArgs] is declared in
    [DeclVisitorWithArgs.h], which is not among the sources.  The spec
    describes dispatch by declaration kind over a closed set of kinds,
    with default cases; as in clang's [DeclVisitor], the default for a
    class forwards to the handler of its base class.  So the handler a
    visitor runs for class [k] is that of the nearest class, going up
    from [k], that the visitor overrides; [Decl] when none does. *)
Fixpoint resolve (overridden : DeclClass -> bool) (n : nat)
    (k : DeclClass) : DeclClass :=
  if overridden k then k
  else match n, base k with
       | S n', Some b => resolve overridden n' b
       | _, _ => Decl
       end.

(** ** Declaration nodes and the graph *)

Definition DeclRef : Type := Z.

(** [Decl::getID]. *)
Definition getID (d : DeclRef) : Z := d.

Record DeclNode : Type := {
  getKind : DeclClass;
  getDeclKindName : string;
  getDefinition : option DeclRef;
  getPreviousDecl : option DeclRef;
  isImplicit : bool;
  isDeleted : bool;
  isDependentContext : bool;
  isTemplated : bool;
  isCanonicalDecl : bool;
  isStaticLocal : bool;
  getQualifiedNameAsString : string;
  getRawCommentForDeclNoCache : option string;
  decls : list DeclRef;
  enumerators : list DeclRef;
  specializations : list DeclRef;
  getTemplatedDecl : option DeclRef;
  getFriendDecl : option DeclRef
}.

Abbreviation AST := (gmap Z DeclNode).

(** ** The collaborators: Filter, flags, the module

    Modelled from the spec: [Filter::What] is declared in [Filter.hpp],
    which is not among the sources.  The spec names the three verdicts in
    the order Nothing, Declaration, Definition; [VisitFunctionDecl]
    compares a verdict with [>=], so the order is part of the model. *)
Inductive What : Set := NOTHING | DECLARATION | DEFINITION.

Definition What_rank (w : What) : Z :=
  match w with NOTHING => 0 | DECLARATION => 1 | DEFINITION => 2 end.

(** [a >= b] on verdicts. *)
Definition What_ge (a b : What) : bool := What_rank b <=? What_rank a.

(** Modelled from the spec: [Module::Flags] is declared in
    [ModuleBuilder.hpp], which is not among the sources.  The spec
    describes an immutable record of two booleans from which every
    recursive step derives a new value, empty at container nodes. *)
Record Flags : Set := {
  in_template : bool;
  in_specialization : bool
}.

Definition set_template (f : Flags) : Flags :=
  {| in_template := true; in_specialization := in_specialization f |}.

Definition set_specialization (f : Flags) : Flags :=
  {| in_template := in_template f; in_specialization := true |}.

Definition none (f : Flags) : bool :=
  negb (in_template f) && negb (in_specialization f).

(** The flags [build_module] starts from, [{}]. *)
Definition no_flags : Flags :=
  {| in_template := false; in_specialization := false |}.

Definition DeclList : Type := list DeclRef.

(** The members of [::Module] that the functions of
    [ModuleBuilder.cpp] write. *)
Record Module : Type := {
  definitions_ : DeclList;
  declarations_ : DeclList;
  template_definitions_ : DeclList;
  template_declarations_ : DeclList;
  asserts_ : DeclList
}.

Definition empty_module : Module :=
  {| definitions_ := []; declarations_ := [];
     template_definitions_ := []; template_declarations_ := [];
     asserts_ := [] |}.

Definition push_back (l : DeclList) (d : DeclRef) : DeclList := l ++ [d].

(** [Module::add_assert]. *)
Definition add_assert (d : DeclRef) (m : Module) : Module :=
  {| definitions_ := definitions_ m;
     declarations_ := declarations_ m;
     template_definitions_ := template_definitions_ m;
     template_declarations_ := template_declarations_ m;
     asserts_ := push_back (asserts_ m) d |}.

(** The static [add_decl]: the two lists are passed by reference, the
    pair returned is their new contents. *)
Definition add_decl (decls tdecls : DeclList) (d : DeclRef)
    (flags : Flags) : DeclList * DeclList :=
  if in_template flags then (decls, push_back tdecls d)
  else
    let decls' := push_back decls d in
    if in_specialization flags then (decls', push_back tdecls d)
    else (decls', tdecls).

(** [Module::add_definition]. *)
Definition add_definition (d : DeclRef) (flags : Flags)
    (m : Module) : Module :=
  let '(ds, ts) :=
    add_decl (definitions_ m) (template_definitions_ m) d flags in
  {| definitions_ := ds;
     declarations_ := declarations_ m;
     template_definitions_ := ts;
     template_declarations_ := template_declarations_ m;
     asserts_ := asserts_ m |}.

(** [Module::add_declaration]. *)
Definition add_declaration (d : DeclRef) (flags : Flags)
    (m : Module) : Module :=
  let '(ds, ts) :=
    add_decl (declarations_ m) (template_declarations_ m) d flags in
  {| definitions_ := definitions_ m;
     declarations_ := ds;
     template_definitions_ := template_definitions_ m;
     template_declarations_ := ts;
     asserts_ := asserts_ m |}.

(** ** The state of a traversal

    What [BuildModule] can change: the module it fills, its visited
    set, and the collaborators it calls.  The calls are kept in order of
    occurrence: consulting the Filter, handing a comment to the
    SpecCollector, writing to a logging sink. *)
Inductive Event : Type :=
| ShouldInclude (d : DeclRef)
| AddSpecification (d : DeclRef) (comment : string)
| LogDebug (msg : string)
| LogError (msg : string).

Record State : Type := {
  module_ : Module;
  visited_ : gset Z;
  events_ : list Event
}.

Definition initial_state (m : Module) : State :=
  {| module_ := m; visited_ := ∅; events_ := [] |}.

(** What ends a run early: a failed [assert], a pointer that is not a
    node of the graph, or the recursion budget of the model. *)
Inductive Failure : Set := AssertionFailed | BadPointer | OutOfFuel.

Inductive Result (A : Type) : Type :=
| Done (a : A) (s : State)
| Abort (f : Failure).
Arguments Done {A} a s.
Arguments Abort {A} f.

Definition M (A : Type) : Type := State -> Result A.

Definition ret {A} (a : A) : M A := fun s => Done a s.

Definition bind {A B} (m : M A) (k : A -> M B) : M B :=
  fun s => match m s with
           | Done a s' => k a s'
           | Abort f => Abort f
           end.

Definition fail {A} (f : Failure) : M A := fun _ => Abort f.

Declare Scope visit_scope.
Delimit Scope visit_scope with visit.
Notation "x <- m ;; k" := (bind m (fun x => k))
  (at level 100, m at next level, right associativity) : visit_scope.
Notation "m ;;; k" := (bind m (fun _ => k))
  (at level 100, right associativity) : visit_scope.
Local Open Scope visit_scope.

Definition modify_module (f : Module -> Module) : M unit :=
  fun s => Done tt {| module_ := f (module_ s);
                      visited_ := visited_ s;
                      events_ := events_ s |}.

Definition emit (e : Event) : M unit :=
  fun s => Done tt {| module_ := module_ s;
                      visited_ := visited_ s;
                      events_ := events_ s ++ [e] |}.

Definition mark_visited (i : Z) : M unit :=
  fun s => Done tt {| module_ := module_ s;
                      visited_ := {[ i ]} ∪ visited_ s;
                      events_ := events_ s |}.

Definition is_visited (i : Z) : M bool :=
  fun s => Done (bool_decide (i ∈ visited_ s)) s.

(** [assert(c)], as in a build with assertions enabled: a false
    condition ends the run.  (With [NDEBUG] defined the macro expands
    to nothing.) *)
Definition assert (c : bool) : M unit :=
  if c then ret tt else fail AssertionFailed.

(** A range-based [for] whose body is [body]. *)
Fixpoint for_each {X} (l : list X) (body : X -> M unit) : M unit :=
  match l with
  | [] => ret tt
  | x :: rest => body x ;;; for_each rest body
  end.

(** ** [BuildModule] *)

Definition dquote : string := String (Ascii.ascii_of_nat 34) EmptyString.
Definition newline : string := String (Ascii.ascii_of_nat 10) EmptyString.

(** The classes for which [BuildModule] declares a [Visit...] of its
    own. *)
Definition overridden (k : DeclClass) : bool :=
  match k with
  | Decl | BuiltinTemplateDecl | VarTemplateDecl | StaticAssertDecl
  | AccessSpecDecl | TranslationUnitDecl | TypeDecl | EmptyDecl
  | TypedefNameDecl | TagDecl | CXXRecordDecl | CXXMethodDecl
  | FunctionDecl | EnumConstantDecl | VarDecl | FieldDecl | UsingDecl
  | UsingDirectiveDecl | IndirectFieldDecl | NamespaceDecl | EnumDecl
  | LinkageSpecDecl | CXXConstructorDecl | CXXDestructorDecl
  | FunctionTemplateDecl | ClassTemplateDecl | FriendDecl
  | TypeAliasTemplateDecl | UsingShadowDecl => true
  | _ => false
  end.

Section BuildModule.

(** The graph of the frontend, the inclusion policy and the
    [templates_] member.  The Filter is a function of the declaration
    (spec, section 6); that it was consulted is recorded in the
    state. *)
Variable ast : AST.
Variable filter_ : DeclRef -> What.
Variable templates_ : bool.

(** Following a pointer. *)
Definition deref (d : DeclRef) : M DeclNode :=
  match ast !! d with
  | Some n => ret n
  | None => fail BadPointer
  end.

Definition shouldInclude (decl : DeclRef) : M What :=
  emit (ShouldInclude decl) ;;; ret (filter_ decl).

Definition go (decl : DeclRef) (flags : Flags) (definition : bool)
  : M What :=
  what <- shouldInclude decl ;;
  match what with
  | DEFINITION =>
      if definition then
        modify_module (add_definition decl flags) ;;; ret what
      else
        modify_module (add_declaration decl flags) ;;; ret DECLARATION
  | DECLARATION =>
      modify_module (add_declaration decl flags) ;;; ret DECLARATION
  | NOTHING => ret NOTHING
  end.

Definition unsupported_decl (n : DeclNode) : M unit :=
  emit (LogDebug ("[DEBUG] unsupported declaration kind " +:+ dquote
                  +:+ getDeclKindName n +:+ dquote +:+ ", dropping."
                  +:+ newline)).

Section Handlers.

(** [this->Visit], the guarded entry point, for the calls the
    handlers make on other declarations. *)
Variable Visit : DeclRef -> Flags -> M unit.

Definition VisitDecl (d : DeclRef) (n : DeclNode) (_ : Flags)
  : M unit :=
  unsupported_decl n.

Definition VisitBuiltinTemplateDecl (_ : DeclRef) (_ : DeclNode)
    (_ : Flags) : M unit :=
  ret tt.

Definition VisitVarTemplateDecl (decl : DeclRef) (n : DeclNode)
    (flags : Flags) : M unit :=
  (if templates_ then
     _ <- go decl (set_template flags) true ;; ret tt
   else ret tt) ;;;
  for_each (specializations n)
    (fun i => Visit i (set_specialization flags)).

Definition VisitStaticAssertDecl (decl : DeclRef) (_ : DeclNode)
    (_ : Flags) : M unit :=
  modify_module (add_assert decl).

Definition VisitAccessSpecDecl (_ : DeclRef) (_ : DeclNode)
    (_ : Flags) : M unit :=
  ret tt.

Definition VisitTranslationUnitDecl (decl : DeclRef) (n : DeclNode)
    (flags : Flags) : M unit :=
  assert (none flags) ;;;
  for_each (decls n) (fun i => Visit i flags).

Definition VisitTypeDecl (type : DeclRef) (n : DeclNode) (_ : Flags)
  : M unit :=
  emit (LogError ("Error: Unsupported type declaration: "
                  +:+ getQualifiedNameAsString n +:+ "(type = "
                  +:+ getDeclKindName n +:+ ")" +:+ newline)).

Definition VisitEmptyDecl (_ : DeclRef) (_ : DeclNode) (_ : Flags)
  : M unit :=
  ret tt.

Definition VisitTypedefNameDecl (type : DeclRef) (_ : DeclNode)
    (flags : Flags) : M unit :=
  _ <- go type flags true ;; ret tt.

Definition VisitTagDecl (decl : DeclRef) (n : DeclNode)
    (flags : Flags) : M unit :=
  let defn := getDefinition n in
  if bool_decide (defn = Some decl) then
    _ <- go decl flags true ;; ret tt
  else if bool_decide (defn = None)
          && bool_decide (getPreviousDecl n = None) then
    _ <- go decl flags false ;; ret tt
  else ret tt.

Definition VisitCXXRecordDecl (decl : DeclRef) (n : DeclNode)
    (flags : Flags) : M unit :=
  if isImplicit n then ret tt
  else if negb (in_specialization flags)
          && isa ClassTemplateSpecializationDecl (getKind n) then
    ret tt
  else
    for_each (decls n) (fun i => Visit i flags) ;;;
    VisitTagDecl decl n flags.

(** The body of the loop that looks for static local variables:
    [dyn_cast<VarDecl>(i)], then [isStaticLocal]. *)
Definition scan_static_local (flags : Flags) (i : DeclRef)
  : M unit :=
  ni <- deref i ;;
  if isa VarDecl (getKind ni) then
    if isStaticLocal ni then _ <- go i flags true ;; ret tt
    else ret tt
  else ret tt.

Definition VisitFunctionDecl (decl : DeclRef) (n : DeclNode)
    (flags : Flags) : M unit :=
  if negb templates_ && isDependentContext n then ret tt
  else
    let defn := getDefinition n in
    if bool_decide (defn = Some decl) then
      match getRawCommentForDeclNoCache n with
      | Some c => emit (AddSpecification decl c)
      | None => ret tt
      end ;;;
      what <- go decl flags true ;;
      if What_ge what DEFINITION then
        for_each (decls n) (scan_static_local flags)
      else ret tt
    else if bool_decide (defn = None)
            && bool_decide (getPreviousDecl n = None) then
      _ <- go decl flags false ;; ret tt
    else ret tt.

(** After its own test, the override calls the visitor's default
    for the class, which forwards to the handler of the base class
    [FunctionDecl]. *)
Definition VisitCXXMethodDecl (decl : DeclRef) (n : DeclNode)
    (flags : Flags) : M unit :=
  if isDeleted n then ret tt
  else VisitFunctionDecl decl n flags.

Definition VisitEnumConstantDecl (decl : DeclRef) (_ : DeclNode)
    (flags : Flags) : M unit :=
  _ <- go decl flags true ;; ret tt.

Definition VisitVarDecl (decl : DeclRef) (n : DeclNode)
    (flags : Flags) : M unit :=
  if negb templates_ && negb (isTemplated n) then ret tt
  else _ <- go decl flags true ;; ret tt.

Definition VisitFieldDecl (_ : DeclRef) (_ : DeclNode) (_ : Flags)
  : M unit :=
  ret tt.

Definition VisitUsingDecl (_ : DeclRef) (_ : DeclNode) (_ : Flags)
  : M unit :=
  ret tt.

Definition VisitUsingDirectiveDecl (_ : DeclRef) (_ : DeclNode)
    (_ : Flags) : M unit :=
  ret tt.

Definition VisitIndirectFieldDecl (_ : DeclRef) (_ : DeclNode)
    (_ : Flags) : M unit :=
  ret tt.

Definition VisitNamespaceDecl (decl : DeclRef) (n : DeclNode)
    (flags : Flags) : M unit :=
  assert (none flags) ;;;
  for_each (decls n) (fun d => Visit d flags).

Definition VisitEnumDecl (decl : DeclRef) (n : DeclNode)
    (flags : Flags) : M unit :=
  if negb (isCanonicalDecl n) then ret tt
  else
    _ <- go decl flags true ;;
    for_each (enumerators n)
      (fun i => _ <- go i flags true ;; ret tt).

Definition VisitLinkageSpecDecl (decl : DeclRef) (n : DeclNode)
    (flags : Flags) : M unit :=
  assert (none flags) ;;;
  for_each (decls n) (fun i => Visit i flags).

(** The default for a constructor forwards to the handler of
    [CXXMethodDecl], which [BuildModule] overrides. *)
Definition VisitCXXConstructorDecl (decl : DeclRef) (n : DeclNode)
    (flags : Flags) : M unit :=
  if isDeleted n then ret tt
  else VisitCXXMethodDecl decl n flags.

Definition VisitCXXDestructorDecl (decl : DeclRef) (n : DeclNode)
    (flags : Flags) : M unit :=
  if isDeleted n then ret tt
  else VisitCXXMethodDecl decl n flags.

Definition VisitFunctionTemplateDecl (decl : DeclRef) (n : DeclNode)
    (flags : Flags) : M unit :=
  (if templates_ then
     _ <- go decl (set_template flags) true ;; ret tt
   else ret tt) ;;;
  for_each (specializations n)
    (fun i => Visit i (set_specialization flags)).

Definition VisitClassTemplateDecl (decl : DeclRef) (n : DeclNode)
    (flags : Flags) : M unit :=
  (if templates_ then
     match getTemplatedDecl n with
     | Some t => Visit t (set_template flags)
     | None => fail BadPointer
     end
   else ret tt) ;;;
  for_each (specializations n)
    (fun i => Visit i (set_specialization flags)).

Definition VisitFriendDecl (decl : DeclRef) (n : DeclNode)
    (flags : Flags) : M unit :=
  match getFriendDecl n with
  | Some target => Visit target flags
  | None => ret tt
  end.

Definition VisitTypeAliasTemplateDecl (_ : DeclRef) (_ : DeclNode)
    (_ : Flags) : M unit :=
  ret tt.

Definition VisitUsingShadowDecl (_ : DeclRef) (_ : DeclNode)
    (_ : Flags) : M unit :=
  ret tt.

(** The method of [BuildModule] named after class [c]. *)
Definition handler (c : DeclClass)
  : DeclRef -> DeclNode -> Flags -> M unit :=
  match c with
  | BuiltinTemplateDecl => VisitBuiltinTemplateDecl
  | VarTemplateDecl => VisitVarTemplateDecl
  | StaticAssertDecl => VisitStaticAssertDecl
  | AccessSpecDecl => VisitAccessSpecDecl
  | TranslationUnitDecl => VisitTranslationUnitDecl
  | TypeDecl => VisitTypeDecl
  | EmptyDecl => VisitEmptyDecl
  | TypedefNameDecl => VisitTypedefNameDecl
  | TagDecl => VisitTagDecl
  | CXXRecordDecl => VisitCXXRecordDecl
  | CXXMethodDecl => VisitCXXMethodDecl
  | FunctionDecl => VisitFunctionDecl
  | EnumConstantDecl => VisitEnumConstantDecl
  | VarDecl => VisitVarDecl
  | FieldDecl => VisitFieldDecl
  | UsingDecl => VisitUsingDecl
  | UsingDirectiveDecl => VisitUsingDirectiveDecl
  | IndirectFieldDecl => VisitIndirectFieldDecl
  | NamespaceDecl => VisitNamespaceDecl
  | EnumDecl => VisitEnumDecl
  | LinkageSpecDecl => VisitLinkageSpecDecl
  | CXXConstructorDecl => VisitCXXConstructorDecl
  | CXXDestructorDecl => VisitCXXDestructorDecl
  | FunctionTemplateDecl => VisitFunctionTemplateDecl
  | ClassTemplateDecl => VisitClassTemplateDecl
  | FriendDecl => VisitFriendDecl
  | TypeAliasTemplateDecl => VisitTypeAliasTemplateDecl
  | UsingShadowDecl => VisitUsingShadowDecl
  | _ => VisitDecl
  end.

(** [Visitor::Visit]: dispatch on the dynamic class of [d]. *)
Definition Visitor_Visit (d : DeclRef) (flags : Flags) : M unit :=
  n <- deref d ;;
  handler (resolve overridden chain_depth (getKind n)) d n flags.

End Handlers.

(** [BuildModule::Visit].  The recursion of the traversal is through
    this function; [fuel] bounds its depth. *)
Fixpoint Visit (fuel : nat) (d : DeclRef) (flags : Flags) : M unit :=
  seen <- is_visited (getID d) ;;
  if seen then ret tt
  else match fuel with
       | O => fail OutOfFuel
       | S fuel' =>
           mark_visited (getID d) ;;;
           Visitor_Visit (Visit fuel') d flags
       end.

(** A depth no traversal of [ast] exceeds (see
    [Visit_enough_fuel]). *)
Definition depth_bound : nat := S (size ast).

(** [build_module], from the translation unit [tu] and the flags
    [{}].  The result is the module filled, or the failure. *)
Definition build_module (tu : DeclRef) (m : Module) : Result unit :=
  (n <- deref tu ;;
   VisitTranslationUnitDecl (Visit depth_bound) tu n no_flags)
    (initial_state m).

End BuildModule.


(** ** The printer of local declarations *)

Module Printer.

(** Modelled from the spec: the stream manipulators of [Formatter.hpp]
    ([fmt::lparen], [fmt::rparen], [fmt::nbsp], [fmt::line]) are not
    among the sources.  What is written to the stream is kept as a
    sequence of items; their text follows the literal terms of the
    spec, in which a tuple opens with a parenthesis, closes with one and
    has a single space after each comma. *)
Inductive Item : Type :=
| lparen
| rparen
| nbsp
| line
| text (s : string)
| error_marker.

(** Modelled from the spec: [CoqPrinter] is declared in
    [CoqPrinter.hpp], which is not among the sources.  [output()] is the
    stream; [ctor(name, line)] opens a parenthesised application of the
    constructor [name] (the grammar of the output is constructor applied
    to arguments, every unit parenthesised); [error()] puts an explicit
    inline error marker in the output stream and hands the stream back,
    so that the message follows the marker. *)
Record CoqPrinter : Type := { output_ : list Item }.

Definition output (items : list Item) (print : CoqPrinter)
  : CoqPrinter :=
  {| output_ := output_ print ++ items |}.

Definition ctor (name : string) (with_line : bool) (print : CoqPrinter)
  : CoqPrinter :=
  output ((if with_line then [line] else []) ++ [lparen; text name; nbsp])
    print.

Definition error (print : CoqPrinter) : CoqPrinter :=
  output [error_marker] print.

Section Render.

(** The text of the error marker is not fixed by the spec. *)
Variable marker_text : string.

Definition render_item (i : Item) : string :=
  match i with
  | lparen => "("
  | rparen => ")"
  | nbsp => " "
  | line => newline
  | text s => s
  | error_marker => marker_text
  end.

Fixpoint render (items : list Item) : string :=
  match items with
  | [] => ""
  | i :: rest => render_item i +:+ render rest
  end.

End Render.

Section PrintLocalDecl.

(** [clang::QualType] and [clang::Expr], and the terms that
    [ClangPrinter::printQualType] and [ClangPrinter::printExpr] write
    for them ([PrintType.cpp] and [PrintExpr.cpp] are not among the
    sources). *)
Variables QualType Expr : Type.

Record ClangPrinter : Type := {
  printQualType : QualType -> list Item;
  printExpr : Expr -> list Item
}.

(** The declaration handed to the printer: its dynamic class and, for
    a variable, what [VisitVarDecl] reads.  [hasInit] is [getInit]
    being present. *)
Record LocalDecl : Type := {
  getKind : DeclClass;
  getNameAsString : string;
  getType : QualType;
  getInit : option Expr
}.

Definition VisitVarDecl (decl : LocalDecl) (print : CoqPrinter)
    (cprint : ClangPrinter) : CoqPrinter :=
  let print :=
    output [lparen; text dquote; text (getNameAsString decl);
            text (dquote +:+ ","); nbsp] print in
  let print := output (printQualType cprint (getType decl)) print in
  let print := output [text ","; nbsp] print in
  let print :=
    match getInit decl with
    | Some init =>
        let print := ctor "Some" false print in
        let print := output (printExpr cprint init) print in
        output [rparen] print
    | None => output [text "None"] print
    end in
  output [rparen] print.

Definition VisitDecl (decl : LocalDecl) (print : CoqPrinter)
    (cprint : ClangPrinter) : CoqPrinter :=
  output [text "unexpected local declaration"] (error print).

(** [PrintLocalDecl] overrides the handlers of two classes only. *)
Definition overridden (k : DeclClass) : bool :=
  match k with
  | VarDecl | Decl => true
  | _ => false
  end.

(** [PrintLocalDecl::printer.Visit]. *)
Definition Visit (decl : LocalDecl) (print : CoqPrinter)
    (cprint : ClangPrinter) : CoqPrinter :=
  match resolve overridden chain_depth (getKind decl) with
  | VarDecl => VisitVarDecl decl print cprint
  | _ => VisitDecl decl print cprint
  end.

(** [ClangPrinter::printLocalDecl]. *)
Definition printLocalDecl (cprint : ClangPrinter) (decl : LocalDecl)
    (print : CoqPrinter) : CoqPrinter :=
  Visit decl print cprint.

End PrintLocalDecl.

Arguments printQualType {QualType Expr} _ _.
Arguments printExpr {QualType Expr} _ _.
Arguments getKind {QualType Expr} _.
Arguments getNameAsString {QualType Expr} _.
Arguments getType {QualType Expr} _.
Arguments getInit {QualType Expr} _.
Arguments VisitVarDecl {QualType Expr} _ _ _.
Arguments VisitDecl {QualType Expr} _ _ _.
Arguments Visit {QualType Expr} _ _ _.
Arguments printLocalDecl {QualType Expr} _ _ _.

End Printer.


(** ** Where the traversal classifies a declaration

    The calls of [go] in [BuildModule], each with the tests that guard
    it.  [handles c n] says that the handler named after class [c] is
    the one dispatched for node [n]. *)

Definition handles (c : DeclClass) (n : DeclNode) : Prop :=
  resolve overridden chain_depth (getKind n) = c.

(** The nodes whose dispatch arrives in [VisitFunctionDecl]: plain
    functions (and deduction guides) directly, methods, constructors,
    destructors and conversions through the [isDeleted] tests. *)
Definition reaches_VisitFunctionDecl (n : DeclNode) : Prop :=
  match resolve overridden chain_depth (getKind n) with
  | FunctionDecl => True
  | CXXMethodDecl | CXXConstructorDecl | CXXDestructorDecl =>
      isDeleted n = false
  | _ => False
  end.

(** The nodes whose dispatch arrives in [VisitTagDecl]. *)
Definition reaches_VisitTagDecl (n : DeclNode) : Prop :=
  handles TagDecl n \/ (handles CXXRecordDecl n /\ isImplicit n = false).

Section Sites.

Variable ast : AST.
Variable filter_ : DeclRef -> What.
Variable templates_ : bool.

(** [go_site decl b]: a call [go(decl, flags, b)] that the traversal of
    [ast] can make. *)
Inductive go_site : DeclRef -> bool -> Prop :=
| site_template decl n :
    ast !! decl = Some n ->
    handles VarTemplateDecl n \/ handles FunctionTemplateDecl n ->
    templates_ = true ->
    go_site decl true
| site_typedef decl n :
    ast !! decl = Some n ->
    handles TypedefNameDecl n ->
    go_site decl true
| site_tag_definition decl n :
    ast !! decl = Some n ->
    reaches_VisitTagDecl n ->
    getDefinition n = Some decl ->
    go_site decl true
| site_tag_first_seen decl n :
    ast !! decl = Some n ->
    reaches_VisitTagDecl n ->
    getDefinition n = None ->
    getPreviousDecl n = None ->
    go_site decl false
| site_function_definition decl n :
    ast !! decl = Some n ->
    reaches_VisitFunctionDecl n ->
    negb templates_ && isDependentContext n = false ->
    getDefinition n = Some decl ->
    go_site decl true
| site_function_first_seen decl n :
    ast !! decl = Some n ->
    reaches_VisitFunctionDecl n ->
    negb templates_ && isDependentContext n = false ->
    getDefinition n = None ->
    getPreviousDecl n = None ->
    go_site decl false
| site_static_local i ni decl n :
    ast !! decl = Some n ->
    reaches_VisitFunctionDecl n ->
    negb templates_ && isDependentContext n = false ->
    getDefinition n = Some decl ->
    filter_ decl = DEFINITION ->
    i ∈ decls n ->
    ast !! i = Some ni ->
    isa VarDecl (getKind ni) = true ->
    isStaticLocal ni = true ->
    go_site i true
| site_enum_constant decl n :
    ast !! decl = Some n ->
    handles EnumConstantDecl n ->
    go_site decl true
| site_var decl n :
    ast !! decl = Some n ->
    handles VarDecl n ->
    negb templates_ && negb (isTemplated n) = false ->
    go_site decl true
| site_enum decl n :
    ast !! decl = Some n ->
    handles EnumDecl n ->
    isCanonicalDecl n = true ->
    go_site decl true
| site_enumerator i decl n :
    ast !! decl = Some n ->
    handles EnumDecl n ->
    isCanonicalDecl n = true ->
    i ∈ enumerators n ->
    go_site i true.

(** The same, read off the node [n] of the declaration [decl]: what
    must hold of [n] for a call [go(decl, flags, b)] to exist. *)
Definition at_definition_or_first_seen (decl : DeclRef) (n : DeclNode)
    (b : bool) : Prop :=
  (b = true /\ getDefinition n = Some decl)
  \/ (b = false /\ getDefinition n = None /\ getPreviousDecl n = None).

Definition own_site (decl : DeclRef) (n : DeclNode) (b : bool) : Prop :=
  match resolve overridden chain_depth (getKind n) with
  | VarTemplateDecl | FunctionTemplateDecl =>
      templates_ = true /\ b = true
  | TypedefNameDecl | EnumConstantDecl => b = true
  | TagDecl => at_definition_or_first_seen decl n b
  | CXXRecordDecl =>
      isImplicit n = false /\ at_definition_or_first_seen decl n b
  | FunctionDecl =>
      negb templates_ && isDependentContext n = false
      /\ at_definition_or_first_seen decl n b
  | CXXMethodDecl | CXXConstructorDecl | CXXDestructorDecl =>
      isDeleted n = false
      /\ negb templates_ && isDependentContext n = false
      /\ at_definition_or_first_seen decl n b
  | VarDecl =>
      b = true
      /\ (negb templates_ && negb (isTemplated n) = false
          \/ isStaticLocal n = true)
  | EnumDecl => isCanonicalDecl n = true /\ b = true
  | _ => False
  end.

(** What an entry of a definition list, and of a declaration list, must
    come from. *)
Definition definition_entry (d : DeclRef) : Prop :=
  filter_ d = DEFINITION /\ go_site d true.

Definition declaration_entry (d : DeclRef) : Prop :=
  (filter_ d = DECLARATION /\ exists b, go_site d b)
  \/ (filter_ d = DEFINITION /\ go_site d false).

Definition sited (m : Module) : Prop :=
  Forall definition_entry (definitions_ m)
  /\ Forall definition_entry (template_definitions_ m)
  /\ Forall declaration_entry (declarations_ m)
  /\ Forall declaration_entry (template_declarations_ m).

(** The nodes of the graph not yet visited: what bounds the depth of
    the recursion. *)
Definition unvisited (s : State) : gset Z := dom ast ∖ visited_ s.

(** The frontend's typing of [enumerators()]: the range yields
    [EnumConstantDecl]s of the graph. *)
Definition is_enumerator (i : DeclRef) : bool :=
  match ast !! i with
  | Some ni => isa EnumConstantDecl (getKind ni)
  | None => false
  end.

Definition enumerators_typed : Prop :=
  map_Forall (fun _ ne => forallb is_enumerator (enumerators ne) = true)
    ast.

End Sites.

(** Every entry of the four lists. *)
Definition output_lists (m : Module) : list DeclRef :=
  definitions_ m ++ declarations_ m
  ++ template_definitions_ m ++ template_declarations_ m.

(** The state [go] continues from once the Filter has answered. *)
Definition consulted (decl : DeclRef) (s : State) : State :=
  {| module_ := module_ s; visited_ := visited_ s;
     events_ := events_ s ++ [ShouldInclude decl] |}.

Definition with_module (m : Module) (s : State) : State :=
  {| module_ := m; visited_ := visited_ s; events_ := events_ s |}.

(** The module of a finished run. *)
Definition built (r : Result unit) : option Module :=
  match r with
  | Done _ s => Some (module_ s)
  | Abort _ => None
  end.


(** ** Vocabulary of the proofs *)

Arguments resolve : simpl never.
Arguments inherits : simpl never.

(** [sound I R E m]: from a state in [I], a run of [m] that finishes
    relates its two ends by [R], and one that aborts does so with a
    failure in [E]. *)
Definition sound (I : State -> Prop) (R : State -> State -> Prop)
    (E : Failure -> Prop) {A} (m : M A) : Prop :=
  forall s, I s ->
    match m s with
    | Done _ s' => R s s'
    | Abort f => E f
    end.

(** The state once [d] is recorded in the visited set. *)
Definition marked (d : DeclRef) (s : State) : State :=
  {| module_ := module_ s;
     visited_ := {[ d ]} ∪ visited_ s;
     events_ := events_ s |}.

(** The traversal with every edge into [x] cut: [Visit], but a visit
    of [x] returns at once, whatever the visited set holds.  It is the
    yardstick for what the guard does to the edges that lead back to a
    declaration whose visit is under way. *)
Fixpoint Visit_except (ast : AST) (filter_ : DeclRef -> What)
    (templates_ : bool) (x : DeclRef) (fuel : nat) (d : DeclRef)
    (flags : Flags) : M unit :=
  if bool_decide (d = x) then ret tt
  else
    seen <- is_visited (getID d) ;;
    if seen then ret tt
    else match fuel with
         | O => fail OutOfFuel
         | S fuel' =>
             mark_visited (getID d) ;;;
             Visitor_Visit ast filter_ templates_
               (Visit_except ast filter_ templates_ x fuel') d flags
         end.

(** [m] never takes [x] out of the visited set. *)
Definition keeps_visited {A} (x : DeclRef) (m : M A) : Prop :=
  forall s a s', x ∈ visited_ s -> m s = Done a s' -> x ∈ visited_ s'.

(** Two computations that agree from every state in which [x] is
    recorded as visited. *)
Definition same_once_visited {A} (x : DeclRef) (m1 m2 : M A) : Prop :=
  forall s, x ∈ visited_ s -> m2 s = m1 s.

Definition keeps_sited (ast : AST) (filter_ : DeclRef -> What)
    (templates_ : bool) (s s' : State) : Prop :=
  sited ast filter_ templates_ (module_ s) ->
  sited ast filter_ templates_ (module_ s').

Definition grows (s s' : State) : Prop := visited_ s ⊆ visited_ s'.

(** The declarations that the scan of a function body picks. *)
Definition is_static_local (ast : AST) (i : DeclRef) : bool :=
  match ast !! i with
  | Some ni => isa VarDecl (getKind ni) && isStaticLocal ni
  | None => false
  end.


(** What a call [go(i, flags)], with the default [definition = true],
    does to the module. *)
Definition classify (filter_ : DeclRef -> What) (flags : Flags)
    (m : Module) (i : DeclRef) : Module :=
  match filter_ i with
  | DEFINITION => add_definition i flags m
  | DECLARATION => add_declaration i flags m
  | NOTHING => m
  end.

(** The children of [n] are nodes of the graph. *)
Definition children_in (ast : AST) (n : DeclNode) : Prop :=
  Forall (fun i => is_Some (ast !! i)) (decls n).

Definition within (ast : AST) (fuel : nat) (s : State) : Prop :=
  (size (unvisited ast s) < fuel)%nat.

Definition in_budget (f : Failure) : Prop := f <> OutOfFuel.

(** ** Small graphs

    Translation units used to run the traversal.  [node] builds an
    undeleted, non-templated, uncommented canonical node; the functions
    after it change one attribute. *)

Definition node (k : DeclClass) (name : string) (defn prev : option DeclRef)
    (children : list DeclRef) : DeclNode :=
  {| getKind := k; getDeclKindName := name;
     getDefinition := defn; getPreviousDecl := prev;
     isImplicit := false; isDeleted := false;
     isDependentContext := false; isTemplated := false;
     isCanonicalDecl := true; isStaticLocal := false;
     getQualifiedNameAsString := name;
     getRawCommentForDeclNoCache := None;
     decls := children; enumerators := []; specializations := [];
     getTemplatedDecl := None; getFriendDecl := None |}.

Definition deleted (n : DeclNode) : DeclNode :=
  {| getKind := getKind n; getDeclKindName := getDeclKindName n;
     getDefinition := getDefinition n;
     getPreviousDecl := getPreviousDecl n;
     isImplicit := isImplicit n; isDeleted := true;
     isDependentContext := isDependentContext n;
     isTemplated := isTemplated n;
     isCanonicalDecl := isCanonicalDecl n;
     isStaticLocal := isStaticLocal n;
     getQualifiedNameAsString := getQualifiedNameAsString n;
     getRawCommentForDeclNoCache := getRawCommentForDeclNoCache n;
     decls := decls n; enumerators := enumerators n;
     specializations := specializations n;
     getTemplatedDecl := getTemplatedDecl n;
     getFriendDecl := getFriendDecl n |}.

Definition templated (n : DeclNode) : DeclNode :=
  {| getKind := getKind n; getDeclKindName := getDeclKindName n;
     getDefinition := getDefinition n;
     getPreviousDecl := getPreviousDecl n;
     isImplicit := isImplicit n; isDeleted := isDeleted n;
     isDependentContext := isDependentContext n;
     isTemplated := true;
     isCanonicalDecl := isCanonicalDecl n;
     isStaticLocal := isStaticLocal n;
     getQualifiedNameAsString := getQualifiedNameAsString n;
     getRawCommentForDeclNoCache := getRawCommentForDeclNoCache n;
     decls := decls n; enumerators := enumerators n;
     specializations := specializations n;
     getTemplatedDecl := getTemplatedDecl n;
     getFriendDecl := getFriendDecl n |}.

Definition static_local (n : DeclNode) : DeclNode :=
  {| getKind := getKind n; getDeclKindName := getDeclKindName n;
     getDefinition := getDefinition n;
     getPreviousDecl := getPreviousDecl n;
     isImplicit := isImplicit n; isDeleted := isDeleted n;
     isDependentContext := isDependentContext n;
     isTemplated := isTemplated n;
     isCanonicalDecl := isCanonicalDecl n;
     isStaticLocal := true;
     getQualifiedNameAsString := getQualifiedNameAsString n;
     getRawCommentForDeclNoCache := getRawCommentForDeclNoCache n;
     decls := decls n; enumerators := enumerators n;
     specializations := specializations n;
     getTemplatedDecl := getTemplatedDecl n;
     getFriendDecl := getFriendDecl n |}.

Definition commented (c : string) (n : DeclNode) : DeclNode :=
  {| getKind := getKind n; getDeclKindName := getDeclKindName n;
     getDefinition := getDefinition n;
     getPreviousDecl := getPreviousDecl n;
     isImplicit := isImplicit n; isDeleted := isDeleted n;
     isDependentContext := isDependentContext n;
     isTemplated := isTemplated n;
     isCanonicalDecl := isCanonicalDecl n;
     isStaticLocal := isStaticLocal n;
     getQualifiedNameAsString := getQualifiedNameAsString n;
     getRawCommentForDeclNoCache := Some c;
     decls := decls n; enumerators := enumerators n;
     specializations := specializations n;
     getTemplatedDecl := getTemplatedDecl n;
     getFriendDecl := getFriendDecl n |}.

Definition not_canonical (n : DeclNode) : DeclNode :=
  {| getKind := getKind n; getDeclKindName := getDeclKindName n;
     getDefinition := getDefinition n;
     getPreviousDecl := getPreviousDecl n;
     isImplicit := isImplicit n; isDeleted := isDeleted n;
     isDependentContext := isDependentContext n;
     isTemplated := isTemplated n;
     isCanonicalDecl := false;
     isStaticLocal := isStaticLocal n;
     getQualifiedNameAsString := getQualifiedNameAsString n;
     getRawCommentForDeclNoCache := getRawCommentForDeclNoCache n;
     decls := decls n; enumerators := enumerators n;
     specializations := specializations n;
     getTemplatedDecl := getTemplatedDecl n;
     getFriendDecl := getFriendDecl n |}.

Definition with_specializations (l : list DeclRef) (n : DeclNode)
  : DeclNode :=
  {| getKind := getKind n; getDeclKindName := getDeclKindName n;
     getDefinition := getDefinition n;
     getPreviousDecl := getPreviousDecl n;
     isImplicit := isImplicit n; isDeleted := isDeleted n;
     isDependentContext := isDependentContext n;
     isTemplated := isTemplated n;
     isCanonicalDecl := isCanonicalDecl n;
     isStaticLocal := isStaticLocal n;
     getQualifiedNameAsString := getQualifiedNameAsString n;
     getRawCommentForDeclNoCache := getRawCommentForDeclNoCache n;
     decls := decls n; enumerators := enumerators n;
     specializations := l;
     getTemplatedDecl := getTemplatedDecl n;
     getFriendDecl := getFriendDecl n |}.

Definition accept_all : DeclRef -> What := fun _ => DEFINITION.

(** [extern int x; int x = 1;]: declaration 1, then its definition 2. *)
Definition tu_extern_var : AST :=
  list_to_map
    [ (0, node TranslationUnitDecl "TranslationUnit" None None [1; 2]);
      (1, node VarDecl "Var" (Some 2) None []);
      (2, node VarDecl "Var" (Some 2) (Some 1) []) ].

(** [enum E : int; enum E : int { A };]: the opaque declaration 1 is
    the canonical one, the definition 2 follows it. *)
Definition tu_opaque_enum : AST :=
  list_to_map
    [ (0, node TranslationUnitDecl "TranslationUnit" None None [1; 2]);
      (1, node EnumDecl "Enum" (Some 2) None []);
      (2, not_canonical (node EnumDecl "Enum" (Some 2) (Some 1) [])) ].

(** [struct S; struct S { S(const S&) = delete; };] followed by
    [void f(); void f() {}]. *)
Definition tu_record_function : AST :=
  list_to_map
    [ (0, node TranslationUnitDecl "TranslationUnit" None None
            [1; 2; 4; 5]);
      (1, node CXXRecordDecl "CXXRecord" (Some 2) None []);
      (2, node CXXRecordDecl "CXXRecord" (Some 2) (Some 1) [3]);
      (3, deleted (node CXXConstructorDecl "CXXConstructor" (Some 3)
                     None []));
      (4, node FunctionDecl "Function" (Some 5) None []);
      (5, node FunctionDecl "Function" (Some 5) (Some 4) []) ].

(** [void f() = delete;]: a deleted function that is not a member. *)
Definition tu_deleted_function : AST :=
  list_to_map
    [ (0, node TranslationUnitDecl "TranslationUnit" None None [1]);
      (1, deleted (node FunctionDecl "Function" (Some 1) None [])) ].

(** [template<class T> int S<T>::x = 0;] and [int y;] at namespace
    scope: variable 1 is templated, variable 2 is not. *)
Definition tu_templated_var : AST :=
  list_to_map
    [ (0, node TranslationUnitDecl "TranslationUnit" None None [1; 2]);
      (1, templated (node VarDecl "Var" (Some 1) None []));
      (2, node VarDecl "Var" (Some 2) None []) ].

(** [/* spec */ int f() { static int n; int k; return n + k; }]. *)
Definition tu_static_local : AST :=
  list_to_map
    [ (0, node TranslationUnitDecl "TranslationUnit" None None [1]);
      (1, commented "spec"
            (node FunctionDecl "Function" (Some 1) None [2; 3]));
      (2, static_local (node VarDecl "Var" (Some 2) None []));
      (3, node VarDecl "Var" (Some 3) None []) ].

(** A function template 1 whose specialization 2 it lists, and that is
    reached a second time through a friend declaration 3. *)
Definition tu_specialization : AST :=
  list_to_map
    [ (0, node TranslationUnitDecl "TranslationUnit" None None [1; 3]);
      (1, with_specializations [2]
            (node FunctionTemplateDecl "FunctionTemplate" None None []));
      (2, node FunctionDecl "Function" (Some 2) None []);
      (3, node CXXRecordDecl "CXXRecord" (Some 3) None [4]);
      (4, {| getKind := FriendDecl; getDeclKindName := "Friend";
             getDefinition := None; getPreviousDecl := None;
             isImplicit := false; isDeleted := false;
             isDependentContext := false; isTemplated := false;
             isCanonicalDecl := true; isStaticLocal := false;
             getQualifiedNameAsString := "";
             getRawCommentForDeclNoCache := None;
             decls := []; enumerators := []; specializations := [];
             getTemplatedDecl := None; getFriendDecl := Some 2 |}) ].


(** A friend declaration of [target]. *)
Definition friend_of (target : DeclRef) : DeclNode :=
  {| getKind := FriendDecl; getDeclKindName := "Friend";
     getDefinition := None; getPreviousDecl := None;
     isImplicit := false; isDeleted := false;
     isDependentContext := false; isTemplated := false;
     isCanonicalDecl := true; isStaticLocal := false;
     getQualifiedNameAsString := "friend";
     getRawCommentForDeclNoCache := None;
     decls := []; enumerators := []; specializations := [];
     getTemplatedDecl := None; getFriendDecl := Some target |}.

(** A cycle: the class 1 declares itself a friend, so that the friend
    declaration 2 among its members leads back to 1. *)
Definition tu_cycle : AST :=
  list_to_map
    [ (0, node TranslationUnitDecl "TranslationUnit" None None [1]);
      (1, node CXXRecordDecl "CXXRecord" (Some 1) None [2]);
      (2, friend_of 1) ].

(** Two member functions with a comment, each at its defining
    occurrence: 1 is deleted, 2 is not. *)
Definition tu_commented_methods : AST :=
  list_to_map
    [ (0, node TranslationUnitDecl "TranslationUnit" None None [1; 2]);
      (1, deleted
            (commented "deleted"
               (node CXXMethodDecl "CXXMethod" (Some 1) None [])));
      (2, commented "kept"
            (node CXXMethodDecl "CXXMethod" (Some 2) None [])) ].

(** A local variable [x] of type [int], without and with an
    initializer.  The two printers of types and expressions are stood
    in for by one that writes a fixed text for each. *)
Definition placeholder_printer : Printer.ClangPrinter unit unit :=
  {| Printer.printQualType := fun _ => [Printer.text "<int-type-term>"];
     Printer.printExpr := fun _ => [Printer.text "<E-term>"] |}.

Definition local_x (init : option unit) : Printer.LocalDecl unit unit :=
  {| Printer.getKind := VarDecl;
     Printer.getNameAsString := "x";
     Printer.getType := tt;
     Printer.getInit := init |}.

Definition empty_output : Printer.CoqPrinter :=
  {| Printer.output_ := [] |}.

(** The items [VisitVarDecl] writes for a variable. *)
Definition local_decl_items {QualType Expr : Type}
    (cprint : Printer.ClangPrinter QualType Expr)
    (decl : Printer.LocalDecl QualType Expr) : list Printer.Item :=
  [Printer.lparen; Printer.text dquote;
   Printer.text (Printer.getNameAsString decl);
   Printer.text (dquote +:+ ","); Printer.nbsp]
  ++ Printer.printQualType cprint (Printer.getType decl)
  ++ [Printer.text ","; Printer.nbsp]
  ++ match Printer.getInit decl with
     | Some init =>
         [Printer.lparen; Printer.text "Some"; Printer.nbsp]
         ++ Printer.printExpr cprint init ++ [Printer.rparen]
     | None => [Printer.text "None"]
     end
  ++ [Printer.rparen].

(** ** Vocabulary of the further properties *)

(** [m'] holds everything [m] holds, in the same order, with whatever
    was pushed after it. *)
Definition extends (m m' : Module) : Prop :=
  definitions_ m `prefix_of` definitions_ m'
  /\ declarations_ m `prefix_of` declarations_ m'
  /\ template_definitions_ m `prefix_of` template_definitions_ m'
  /\ template_declarations_ m `prefix_of` template_declarations_ m'
  /\ asserts_ m `prefix_of` asserts_ m'.

Definition extends_state (s s' : State) : Prop :=
  extends (module_ s) (module_ s') /\ events_ s `prefix_of` events_ s'.

(** The handlers with an empty body. *)
Definition ignored (c : DeclClass) : bool :=
  match c with
  | BuiltinTemplateDecl | AccessSpecDecl | EmptyDecl | FieldDecl
  | UsingDecl | UsingDirectiveDecl | IndirectFieldDecl
  | TypeAliasTemplateDecl | UsingShadowDecl => true
  | _ => false
  end.

(** The two handlers that only write to a logging sink. *)
Definition unsupported (c : DeclClass) : bool :=
  match c with
  | Decl | TypeDecl => true
  | _ => false
  end.

(** What the handler of a dropped kind writes to the logging sinks:
    the debug line of [unsupported_decl] for [VisitDecl], the error
    line for [VisitTypeDecl], nothing for the empty handlers. *)
Definition dropped_log (n : DeclNode) : list Event :=
  match resolve overridden chain_depth (getKind n) with
  | Decl =>
      [LogDebug ("[DEBUG] unsupported declaration kind " +:+ dquote
                 +:+ getDeclKindName n +:+ dquote +:+ ", dropping."
                 +:+ newline)]
  | TypeDecl =>
      [LogError ("Error: Unsupported type declaration: "
                 +:+ getQualifiedNameAsString n +:+ "(type = "
                 +:+ getDeclKindName n +:+ ")" +:+ newline)]
  | _ => []
  end.

(** Every entry of a template partition is in the main partition of
    the same kind. *)
Definition template_lists_duplicate (m : Module) : Prop :=
  template_definitions_ m ⊆ definitions_ m
  /\ template_declarations_ m ⊆ declarations_ m.

(** Two computations, and two guarded entry points, agree wherever the
    first does not stop for lack of budget. *)
Definition same_unless_exhausted {A} (m1 m2 : M A) : Prop :=
  forall s, m1 s <> Abort OutOfFuel -> m2 s = m1 s.

Definition agrees (V1 V2 : DeclRef -> Flags -> M unit) : Prop :=
  forall d flags, same_unless_exhausted (V1 d flags) (V2 d flags).

(** The declarations of a list are static assertions of the graph. *)
Definition static_asserts (ast : AST) (l : list DeclRef) : Prop :=
  Forall (fun i => getKind <$> ast !! i = Some StaticAssertDecl) l.

(** The module after [add_assert] on each declaration of a list. *)
Definition add_asserts (l : list DeclRef) (m : Module) : Module :=
  fold_left (fun m i => add_assert i m) l m.

(** The depth of open parentheses after a sequence of items written
    at depth [n]; [None] if a parenthesis is closed that was never
    opened. *)
Fixpoint paren_depth (n : nat) (items : list Printer.Item) : option nat :=
  match items with
  | [] => Some n
  | Printer.lparen :: rest => paren_depth (S n) rest
  | Printer.rparen :: rest =>
      match n with
      | O => None
      | S n' => paren_depth n' rest
      end
  | _ :: rest => paren_depth n rest
  end.

Definition balanced (items : list Printer.Item) : Prop :=
  forall n, paren_depth n items = Some n.

(** A class template 1 with the explicit specialization 2, which the
    translation unit lists before the template. *)
Definition tu_specialization_first : AST :=
  list_to_map
    [ (0, node TranslationUnitDecl "TranslationUnit" None None [2; 1]);
      (1, with_specializations [2]
            (node ClassTemplateDecl "ClassTemplate" None None []));
      (2, node ClassTemplateSpecializationDecl
            "ClassTemplateSpecialization" (Some 2) None []) ].

(** [static_assert(a); static_assert(b); using namespace N;] and a
    label, as a stand-in for a kind without a handler. *)
Definition tu_asserts : AST :=
  list_to_map
    [ (0, node TranslationUnitDecl "TranslationUnit" None None
            [1; 2; 3; 4]);
      (1, node StaticAssertDecl "StaticAssert" None None []);
      (2, node StaticAssertDecl "StaticAssert" None None []);
      (3, node UsingDirectiveDecl "UsingDirective" None None []);
      (4, node LabelDecl "Label" None None []) ].

Definition with_enumerators (l : list DeclRef) (n : DeclNode)
  : DeclNode :=
  {| getKind := getKind n; getDeclKindName := getDeclKindName n;
     getDefinition := getDefinition n;
     getPreviousDecl := getPreviousDecl n;
     isImplicit := isImplicit n; isDeleted := isDeleted n;
     isDependentContext := isDependentContext n;
     isTemplated := isTemplated n;
     isCanonicalDecl := isCanonicalDecl n;
     isStaticLocal := isStaticLocal n;
     getQualifiedNameAsString := getQualifiedNameAsString n;
     getRawCommentForDeclNoCache := getRawCommentForDeclNoCache n;
     decls := decls n; enumerators := l;
     specializations := specializations n;
     getTemplatedDecl := getTemplatedDecl n;
     getFriendDecl := getFriendDecl n |}.

(** [enum E { A, B };] and the prototype [/* spec */ void g();]. *)
Definition tu_enum : AST :=
  list_to_map
    [ (0, node TranslationUnitDecl "TranslationUnit" None None [1; 4]);
      (1, with_enumerators [2; 3]
            (node EnumDecl "Enum" (Some 1) None [2; 3]));
      (2, node EnumConstantDecl "EnumConstant" None None []);
      (3, node EnumConstantDecl "EnumConstant" None None []);
      (4, commented "spec"
            (node FunctionDecl "Function" None None [])) ].

(** A Filter that rejects the declaration 2 and takes the others as
    declarations. *)
Definition reject_2 : DeclRef -> What :=
  fun d => if bool_decide (d = 2) then NOTHING else DECLARATION.

(** * Properties *)

(** ** Running the monad *)

Lemma Visit_S ast filter_ templates_ fuel d flags s :
  Visit ast filter_ templates_ (S fuel) d flags s =
    if bool_decide (d ∈ visited_ s) then Done tt s
    else Visitor_Visit ast filter_ templates_
           (Visit ast filter_ templates_ fuel) d flags (marked d s).
Proof.
  simpl. unfold bind at 1, is_visited, getID.
  repeat case_bool_decide; try reflexivity; contradiction.
Qed.

Lemma Visit_O ast filter_ templates_ d flags s :
  Visit ast filter_ templates_ O d flags s =
    if bool_decide (d ∈ visited_ s) then Done tt s else Abort OutOfFuel.
Proof.
  simpl. unfold bind at 1, is_visited, getID.
  repeat case_bool_decide; try reflexivity; contradiction.
Qed.

Lemma Visitor_Visit_node ast filter_ templates_ V d flags s n :
  ast !! d = Some n ->
  Visitor_Visit ast filter_ templates_ V d flags s =
    handler ast filter_ templates_ V
      (resolve overridden chain_depth (getKind n)) d n flags s.
Proof. intros H. unfold Visitor_Visit, bind, deref. rewrite H. reflexivity. Qed.

Lemma Visitor_Visit_dangling ast filter_ templates_ V d flags s :
  ast !! d = None ->
  Visitor_Visit ast filter_ templates_ V d flags s = Abort BadPointer.
Proof. intros H. unfold Visitor_Visit, bind, deref. rewrite H. reflexivity. Qed.

(** ** A proof rule for the traversal

    [sound m]: from a state in [I], a run of [m] that finishes relates
    its two ends by [R], and one that aborts does so with a failure in
    [E].  Whatever holds of the primitive steps then holds of every
    handler, and of the traversal. *)
Section Soundness.

Variable ast : AST.
Variable filter_ : DeclRef -> What.
Variable templates_ : bool.

Variable I : State -> Prop.
Variable R : State -> State -> Prop.
Variable E : Failure -> Prop.

Local Abbreviation sound := (sound I R E).

Hypothesis R_refl : forall s, R s s.
Hypothesis R_trans : forall s1 s2 s3, R s1 s2 -> R s2 s3 -> R s1 s3.
Hypothesis I_stable : forall s s', I s -> R s s' -> I s'.
Hypothesis E_pointer : E BadPointer.
Hypothesis E_assert : E AssertionFailed.

Lemma sound_ret {A} (a : A) : sound (ret a).
Proof. intros s _. apply R_refl. Qed.

Lemma sound_fail {A} f : E f -> sound (@fail A f).
Proof. intros Hf s _. exact Hf. Qed.

Lemma sound_bind {A B} (m : M A) (k : A -> M B) :
  sound m -> (forall a, sound (k a)) -> sound (bind m k).
Proof.
  intros Hm Hk s HI. unfold bind. specialize (Hm s HI).
  destruct (m s) as [a s1|f]; [|exact Hm].
  specialize (Hk a s1 (I_stable _ _ HI Hm)).
  destruct (k a s1) as [b s2|f]; [|exact Hk].
  eapply R_trans; eassumption.
Qed.

Lemma sound_for_each {X} (l : list X) (body : X -> M unit) :
  (forall x, x ∈ l -> sound (body x)) -> sound (for_each l body).
Proof.
  induction l as [|x l IH]; intros H; simpl.
  - apply sound_ret.
  - apply sound_bind.
    + apply H. left.
    + intros _. apply IH. intros y Hy. apply H. right. exact Hy.
Qed.

Lemma sound_if {A} (b : bool) (m1 m2 : M A) :
  (b = true -> sound m1) -> (b = false -> sound m2) ->
  sound (if b then m1 else m2).
Proof. destruct b; auto. Qed.

Lemma sound_assert c : sound (assert c).
Proof.
  destruct c; simpl; [apply sound_ret | apply sound_fail, E_assert].
Qed.

Lemma sound_deref d {B} (k : DeclNode -> M B) :
  (forall n, ast !! d = Some n -> sound (k n)) ->
  sound (bind (deref ast d) k).
Proof.
  intros H s HI. unfold bind, deref.
  destruct (ast !! d) as [n|] eqn:Hd; simpl.
  - apply (H n eq_refl s HI).
  - exact E_pointer.
Qed.

Hypothesis sound_emit : forall e, sound (emit e).
Hypothesis sound_add_assert :
  forall d, sound (modify_module (add_assert d)).
Hypothesis sound_go :
  forall decl flags definition,
    go_site ast filter_ templates_ decl definition ->
    sound (go filter_ decl flags definition).

Lemma sound_go_ decl flags definition :
  go_site ast filter_ templates_ decl definition ->
  sound (bind (go filter_ decl flags definition) (fun _ => ret tt)).
Proof.
  intros H. apply sound_bind; [apply sound_go, H | intros; apply sound_ret].
Qed.

Variable Visit' : DeclRef -> Flags -> M unit.
Hypothesis sound_Visit' : forall d flags, sound (Visit' d flags).

Lemma sound_VisitTagDecl decl n flags :
  ast !! decl = Some n -> reaches_VisitTagDecl n ->
  sound (VisitTagDecl filter_ decl n flags).
Proof.
  intros Hn Hr. unfold VisitTagDecl.
  case_bool_decide as Hd.
  - apply sound_go_. eapply site_tag_definition; eassumption.
  - destruct (bool_decide (getDefinition n = None)) eqn:H1;
      destruct (bool_decide (getPreviousDecl n = None)) eqn:H2; simpl;
      try apply sound_ret.
    apply bool_decide_eq_true_1 in H1, H2.
    apply sound_go_. eapply site_tag_first_seen; eassumption.
Qed.

Lemma sound_VisitCXXRecordDecl decl n flags :
  ast !! decl = Some n -> handles CXXRecordDecl n ->
  sound (VisitCXXRecordDecl filter_ Visit' decl n flags).
Proof.
  intros Hn Hh. unfold VisitCXXRecordDecl.
  destruct (isImplicit n) eqn:Himp; [apply sound_ret|].
  destruct (negb (in_specialization flags)
            && isa ClassTemplateSpecializationDecl (getKind n));
    [apply sound_ret|].
  apply sound_bind.
  - apply sound_for_each. intros; apply sound_Visit'.
  - intros _. apply sound_VisitTagDecl; [exact Hn|].
    right. split; assumption.
Qed.

Lemma sound_scan_static_local decl n flags i :
  ast !! decl = Some n -> reaches_VisitFunctionDecl n ->
  negb templates_ && isDependentContext n = false ->
  getDefinition n = Some decl -> filter_ decl = DEFINITION ->
  i ∈ decls n ->
  sound (scan_static_local ast filter_ flags i).
Proof.
  intros Hn Hr Hgate Hdef Hf Hi. unfold scan_static_local.
  apply sound_deref. intros ni Hni.
  destruct (isa VarDecl (getKind ni)) eqn:Hvar; [|apply sound_ret].
  destruct (isStaticLocal ni) eqn:Hst; [|apply sound_ret].
  apply sound_go_.
  apply (site_static_local _ _ _ i ni decl n); assumption.
Qed.

Lemma go_verdict decl flags definition s w s' :
  go filter_ decl flags definition s = Done w s' ->
  What_ge w DEFINITION = true -> filter_ decl = DEFINITION.
Proof.
  unfold go, shouldInclude, bind, emit, ret, modify_module.
  destruct (filter_ decl); [| |reflexivity];
    repeat (destruct definition; simpl); intros [= <- _]; discriminate.
Qed.

Lemma sound_VisitFunctionDecl decl n flags :
  ast !! decl = Some n -> reaches_VisitFunctionDecl n ->
  sound (VisitFunctionDecl ast filter_ templates_ decl n flags).
Proof.
  intros Hn Hr. unfold VisitFunctionDecl.
  destruct (negb templates_ && isDependentContext n) eqn:Hgate;
    [apply sound_ret|].
  case_bool_decide as Hd.
  - apply sound_bind.
    { destruct (getRawCommentForDeclNoCache n);
        [apply sound_emit | apply sound_ret]. }
    intros _ s HI. unfold bind.
    pose proof (sound_go decl flags true
                  (site_function_definition _ _ _ _ _ Hn Hr Hgate Hd)
                  s HI) as Hgo.
    destruct (go filter_ decl flags true s) as [w s1|f] eqn:Hrun;
      [|exact Hgo].
    destruct (What_ge w DEFINITION) eqn:Hw.
    + pose proof (go_verdict _ _ _ _ _ _ Hrun Hw) as Hf.
      assert (Hs : sound (for_each (decls n)
                            (scan_static_local ast filter_ flags))).
      { apply sound_for_each. intros i Hi.
        eapply sound_scan_static_local; eassumption. }
      specialize (Hs s1 (I_stable _ _ HI Hgo)).
      destruct (for_each _ _ s1); [|exact Hs].
      eapply R_trans; eassumption.
    + exact Hgo.
  - destruct (bool_decide (getDefinition n = None)) eqn:H1;
      destruct (bool_decide (getPreviousDecl n = None)) eqn:H2; simpl;
      try apply sound_ret.
    apply bool_decide_eq_true_1 in H1, H2.
    apply sound_go_. eapply site_function_first_seen; eassumption.
Qed.

Lemma sound_VisitCXXMethodDecl decl n flags :
  ast !! decl = Some n ->
  handles CXXMethodDecl n \/ handles CXXConstructorDecl n
  \/ handles CXXDestructorDecl n ->
  sound (VisitCXXMethodDecl ast filter_ templates_ decl n flags).
Proof.
  intros Hn Hh. unfold VisitCXXMethodDecl.
  destruct (isDeleted n) eqn:Hdel; [apply sound_ret|].
  apply sound_VisitFunctionDecl; [exact Hn|].
  unfold reaches_VisitFunctionDecl, handles in *.
  destruct Hh as [-> | [-> | ->]]; exact Hdel.
Qed.

Lemma sound_VisitCXXConstructorDecl decl n flags :
  ast !! decl = Some n -> handles CXXConstructorDecl n ->
  sound (VisitCXXConstructorDecl ast filter_ templates_ decl n flags).
Proof.
  intros Hn Hh. unfold VisitCXXConstructorDecl.
  destruct (isDeleted n); [apply sound_ret|].
  apply sound_VisitCXXMethodDecl; auto.
Qed.

Lemma sound_VisitCXXDestructorDecl decl n flags :
  ast !! decl = Some n -> handles CXXDestructorDecl n ->
  sound (VisitCXXDestructorDecl ast filter_ templates_ decl n flags).
Proof.
  intros Hn Hh. unfold VisitCXXDestructorDecl.
  destruct (isDeleted n); [apply sound_ret|].
  apply sound_VisitCXXMethodDecl; auto.
Qed.

Lemma sound_specializations n flags :
  sound (for_each (specializations n)
           (fun i => Visit' i (set_specialization flags))).
Proof. apply sound_for_each. intros; apply sound_Visit'. Qed.

Lemma sound_children n flags :
  sound (for_each (decls n) (fun i => Visit' i flags)).
Proof. apply sound_for_each. intros; apply sound_Visit'. Qed.

Lemma sound_VisitVarTemplateDecl decl n flags :
  ast !! decl = Some n -> handles VarTemplateDecl n ->
  sound (VisitVarTemplateDecl filter_ templates_ Visit' decl n flags).
Proof.
  intros Hn Hh. unfold VisitVarTemplateDecl.
  apply sound_bind; [|intros; apply sound_specializations].
  apply sound_if; intros Ht; [|apply sound_ret].
  apply sound_go_. eapply site_template; eauto.
Qed.

Lemma sound_VisitFunctionTemplateDecl decl n flags :
  ast !! decl = Some n -> handles FunctionTemplateDecl n ->
  sound (VisitFunctionTemplateDecl filter_ templates_ Visit' decl n flags).
Proof.
  intros Hn Hh. unfold VisitFunctionTemplateDecl.
  apply sound_bind; [|intros; apply sound_specializations].
  apply sound_if; intros Ht; [|apply sound_ret].
  apply sound_go_. eapply site_template; eauto.
Qed.

Lemma sound_VisitClassTemplateDecl decl n flags :
  sound (VisitClassTemplateDecl templates_ Visit' decl n flags).
Proof.
  unfold VisitClassTemplateDecl.
  apply sound_bind; [|intros; apply sound_specializations].
  apply sound_if; intros _; [|apply sound_ret].
  destruct (getTemplatedDecl n);
    [apply sound_Visit' | apply sound_fail, E_pointer].
Qed.

Lemma sound_VisitTranslationUnitDecl decl n flags :
  sound (VisitTranslationUnitDecl Visit' decl n flags).
Proof.
  unfold VisitTranslationUnitDecl.
  apply sound_bind; [apply sound_assert | intros; apply sound_children].
Qed.

Lemma sound_VisitNamespaceDecl decl n flags :
  sound (VisitNamespaceDecl Visit' decl n flags).
Proof.
  unfold VisitNamespaceDecl.
  apply sound_bind; [apply sound_assert | intros; apply sound_children].
Qed.

Lemma sound_VisitLinkageSpecDecl decl n flags :
  sound (VisitLinkageSpecDecl Visit' decl n flags).
Proof.
  unfold VisitLinkageSpecDecl.
  apply sound_bind; [apply sound_assert | intros; apply sound_children].
Qed.

Lemma sound_VisitFriendDecl decl n flags :
  sound (VisitFriendDecl Visit' decl n flags).
Proof.
  unfold VisitFriendDecl.
  destruct (getFriendDecl n); [apply sound_Visit' | apply sound_ret].
Qed.

Lemma sound_VisitVarDecl decl n flags :
  ast !! decl = Some n -> handles VarDecl n ->
  sound (VisitVarDecl filter_ templates_ decl n flags).
Proof.
  intros Hn Hh. unfold VisitVarDecl.
  destruct (negb templates_ && negb (isTemplated n)) eqn:Hgate;
    [apply sound_ret|].
  apply sound_go_. eapply site_var; eassumption.
Qed.

Lemma sound_VisitEnumDecl decl n flags :
  ast !! decl = Some n -> handles EnumDecl n ->
  sound (VisitEnumDecl filter_ decl n flags).
Proof.
  intros Hn Hh. unfold VisitEnumDecl.
  destruct (isCanonicalDecl n) eqn:Hc; simpl; [|apply sound_ret].
  apply sound_bind.
  - apply sound_go. eapply site_enum; eassumption.
  - intros _. apply sound_for_each. intros i Hi.
    apply sound_go_. eapply site_enumerator; eassumption.
Qed.

(** Every handler, for the node it is dispatched on. *)
Lemma sound_handler d n flags :
  ast !! d = Some n ->
  sound (handler ast filter_ templates_ Visit'
           (resolve overridden chain_depth (getKind n)) d n flags).
Proof.
  intros Hn.
  destruct (resolve overridden chain_depth (getKind n)) eqn:Hc;
    simpl;
    try (apply sound_emit);
    try (apply sound_ret).
  - apply sound_VisitTranslationUnitDecl.
  - apply sound_VisitNamespaceDecl.
  - apply sound_go_. eapply site_typedef; eassumption.
  - apply sound_VisitTagDecl; [exact Hn | left; exact Hc].
  - apply sound_VisitEnumDecl; assumption.
  - apply sound_VisitCXXRecordDecl; assumption.
  - apply sound_go_. eapply site_enum_constant; eassumption.
  - apply sound_VisitFunctionDecl; [exact Hn|].
    unfold reaches_VisitFunctionDecl. rewrite Hc. exact Logic.I.
  - apply sound_VisitCXXMethodDecl; auto.
  - apply sound_VisitCXXConstructorDecl; assumption.
  - apply sound_VisitCXXDestructorDecl; assumption.
  - apply sound_VisitVarDecl; assumption.
  - apply sound_VisitFunctionTemplateDecl; assumption.
  - apply sound_VisitClassTemplateDecl.
  - apply sound_VisitVarTemplateDecl; assumption.
  - apply sound_VisitLinkageSpecDecl.
  - apply sound_VisitFriendDecl.
  - apply sound_add_assert.
Qed.

Lemma sound_Visitor_Visit d flags :
  sound (Visitor_Visit ast filter_ templates_ Visit' d flags).
Proof.
  unfold Visitor_Visit. apply sound_deref. intros n Hn.
  apply sound_handler, Hn.
Qed.

End Soundness.

(** ** What the primitive steps do to the state *)

Lemma go_run filter_ decl flags definition s :
  go filter_ decl flags definition s =
    match filter_ decl with
    | DEFINITION =>
        if definition then
          Done DEFINITION
            (with_module (add_definition decl flags (module_ s))
               (consulted decl s))
        else
          Done DECLARATION
            (with_module (add_declaration decl flags (module_ s))
               (consulted decl s))
    | DECLARATION =>
        Done DECLARATION
          (with_module (add_declaration decl flags (module_ s))
             (consulted decl s))
    | NOTHING => Done NOTHING (consulted decl s)
    end.
Proof.
  unfold go, shouldInclude, bind, emit, ret, modify_module.
  destruct (filter_ decl), definition; reflexivity.
Qed.

Lemma go_visited filter_ decl flags definition s w s' :
  go filter_ decl flags definition s = Done w s' ->
  visited_ s' = visited_ s.
Proof.
  rewrite go_run.
  destruct (filter_ decl), definition; intros [= _ <-]; reflexivity.
Qed.

Lemma go_finishes filter_ decl flags definition s :
  exists w s', go filter_ decl flags definition s = Done w s'.
Proof.
  rewrite go_run. destruct (filter_ decl), definition; eauto.
Qed.

(** ** The traversal relates its two ends

    A relation on states that is a preorder and that every primitive
    step respects is respected by [Visit], at every depth. *)
Section Related.

Variable ast : AST.
Variable filter_ : DeclRef -> What.
Variable templates_ : bool.
Variable R : State -> State -> Prop.

Let anywhere : State -> Prop := fun _ => True.
Let anyhow : Failure -> Prop := fun _ => True.

Hypothesis R_refl : forall s, R s s.
Hypothesis R_trans : forall s1 s2 s3, R s1 s2 -> R s2 s3 -> R s1 s3.
Hypothesis R_emit : forall e, sound anywhere R anyhow (emit e).
Hypothesis R_mark : forall i, sound anywhere R anyhow (mark_visited i).
Hypothesis R_add_assert :
  forall d, sound anywhere R anyhow (modify_module (add_assert d)).
Hypothesis R_go :
  forall decl flags definition,
    go_site ast filter_ templates_ decl definition ->
    sound anywhere R anyhow (go filter_ decl flags definition).

Lemma Visit_sound fuel :
  forall d flags,
    sound anywhere R anyhow (Visit ast filter_ templates_ fuel d flags).
Proof.
  induction fuel as [|fuel IH]; intros d flags s _; simpl;
    unfold bind at 1, is_visited;
    case_bool_decide; try apply R_refl; try exact Logic.I.
  apply (sound_bind anywhere R anyhow R_trans); try exact Logic.I.
  - intros; exact Logic.I.
  - apply R_mark.
  - intros _. apply (sound_Visitor_Visit ast filter_ templates_);
      auto; try exact Logic.I; intros; exact Logic.I.
Qed.

Lemma Visitor_Visit_related fuel d flags s s' :
  Visitor_Visit ast filter_ templates_
    (Visit ast filter_ templates_ fuel) d flags s = Done tt s' ->
  R s s'.
Proof.
  intros H.
  assert (Hs : sound anywhere R anyhow
                 (Visitor_Visit ast filter_ templates_
                    (Visit ast filter_ templates_ fuel) d flags)).
  { apply (sound_Visitor_Visit ast filter_ templates_);
      auto; try exact Logic.I; intros; try exact Logic.I.
    apply Visit_sound. }
  specialize (Hs s Logic.I). rewrite H in Hs. exact Hs.
Qed.

Lemma Visit_related fuel d flags s s' :
  Visit ast filter_ templates_ fuel d flags s = Done tt s' -> R s s'.
Proof.
  intros H. pose proof (Visit_sound fuel d flags s Logic.I) as Hs.
  rewrite H in Hs. exact Hs.
Qed.

Lemma build_module_related tu m s' :
  build_module ast filter_ templates_ tu m = Done tt s' ->
  R (initial_state m) s'.
Proof.
  unfold build_module. intros H.
  assert (Hs : sound anywhere R anyhow
                 (bind (deref ast tu) (fun n =>
                    VisitTranslationUnitDecl
                      (Visit ast filter_ templates_ (depth_bound ast))
                      tu n no_flags))).
  { apply sound_deref; [exact Logic.I|]. intros n _.
    apply sound_VisitTranslationUnitDecl; auto; try exact Logic.I.
    intros; apply Visit_sound. }
  specialize (Hs (initial_state m) Logic.I). rewrite H in Hs. exact Hs.
Qed.

End Related.

(** ** The bucket rule, list by list *)

Lemma add_decl_fst decls tdecls d flags :
  fst (add_decl decls tdecls d flags)
  = if in_template flags then decls else decls ++ [d].
Proof.
  unfold add_decl, push_back.
  destruct (in_template flags), (in_specialization flags); reflexivity.
Qed.

Lemma add_decl_snd decls tdecls d flags :
  snd (add_decl decls tdecls d flags)
  = if in_template flags || in_specialization flags
    then tdecls ++ [d] else tdecls.
Proof.
  unfold add_decl, push_back.
  destruct (in_template flags), (in_specialization flags); reflexivity.
Qed.

Lemma add_definition_eq d flags m :
  add_definition d flags m =
    {| definitions_ :=
         fst (add_decl (definitions_ m) (template_definitions_ m) d flags);
       declarations_ := declarations_ m;
       template_definitions_ :=
         snd (add_decl (definitions_ m) (template_definitions_ m) d flags);
       template_declarations_ := template_declarations_ m;
       asserts_ := asserts_ m |}.
Proof.
  unfold add_definition.
  destruct (add_decl (definitions_ m) (template_definitions_ m) d flags);
    reflexivity.
Qed.

Lemma add_declaration_eq d flags m :
  add_declaration d flags m =
    {| definitions_ := definitions_ m;
       declarations_ :=
         fst (add_decl (declarations_ m) (template_declarations_ m) d
                flags);
       template_definitions_ := template_definitions_ m;
       template_declarations_ :=
         snd (add_decl (declarations_ m) (template_declarations_ m) d
                flags);
       asserts_ := asserts_ m |}.
Proof.
  unfold add_declaration.
  destruct (add_decl (declarations_ m) (template_declarations_ m) d flags);
    reflexivity.
Qed.

Lemma Forall_bucket {X} (P : X -> Prop) (b : bool) l d :
  Forall P l -> P d -> Forall P (if b then l ++ [d] else l).
Proof.
  intros Hl Hd. destruct b; [|exact Hl].
  apply Forall_app. split; [exact Hl | constructor; [exact Hd | constructor]].
Qed.

Lemma Forall_bucket' {X} (P : X -> Prop) (b : bool) l d :
  Forall P l -> P d -> Forall P (if b then l else l ++ [d]).
Proof.
  intros Hl Hd. destruct b; [exact Hl|].
  apply Forall_app. split; [exact Hl | constructor; [exact Hd | constructor]].
Qed.

(** ** Every entry of the module comes from a call of [go] *)
Section Provenance.

Variable ast : AST.
Variable filter_ : DeclRef -> What.
Variable templates_ : bool.

Local Abbreviation sited := (sited ast filter_ templates_).
Local Abbreviation go_site := (go_site ast filter_ templates_).

Lemma sited_add_definition d flags m :
  filter_ d = DEFINITION -> go_site d true ->
  sited m -> sited (add_definition d flags m).
Proof.
  intros Hf Hs (H1 & H2 & H3 & H4). rewrite add_definition_eq.
  unfold sited; simpl. rewrite add_decl_fst, add_decl_snd.
  repeat split; auto.
  - apply Forall_bucket'; [exact H1 | split; assumption].
  - apply Forall_bucket; [exact H2 | split; assumption].
Qed.

Lemma sited_add_declaration d flags m :
  declaration_entry ast filter_ templates_ d ->
  sited m -> sited (add_declaration d flags m).
Proof.
  intros Hd (H1 & H2 & H3 & H4). rewrite add_declaration_eq.
  unfold sited; simpl. rewrite add_decl_fst, add_decl_snd.
  repeat split; auto.
  - apply Forall_bucket'; assumption.
  - apply Forall_bucket; assumption.
Qed.

Lemma sited_go decl flags definition s w s' :
  go_site decl definition ->
  go filter_ decl flags definition s = Done w s' ->
  sited (module_ s) -> sited (module_ s').
Proof.
  intros Hsite. rewrite go_run.
  destruct (filter_ decl) eqn:Hf; [| |destruct definition];
    intros [= _ <-]; simpl; intros Hm; auto.
  - apply sited_add_declaration; [|exact Hm].
    left. split; [exact Hf | eauto].
  - apply sited_add_definition; assumption.
  - apply sited_add_declaration; [|exact Hm].
    right. split; assumption.
Qed.

Local Abbreviation keeps_sited := (keeps_sited ast filter_ templates_).

Lemma keeps_sited_go decl flags definition :
  go_site decl definition ->
  sound (fun _ => True) keeps_sited (fun _ => True)
    (go filter_ decl flags definition).
Proof.
  intros Hsite s _.
  destruct (go filter_ decl flags definition s) as [w s1|f] eqn:Hgo;
    [|exact Logic.I].
  intros Hm. eapply sited_go; eassumption.
Qed.

Lemma keeps_sited_step (m : M unit) :
  (forall s, exists s', m s = Done tt s' /\ module_ s' = module_ s
                        \/ exists d, m s = Done tt s'
                             /\ module_ s' = add_assert d (module_ s)) ->
  sound (fun _ => True) keeps_sited (fun _ => True) m.
Proof.
  intros H s _. destruct (H s) as [s' [[-> Hm] | [d [-> Hm]]]];
    unfold keeps_sited; rewrite Hm; auto.
Qed.

Lemma Visit_sited fuel d flags s s' :
  Visit ast filter_ templates_ fuel d flags s = Done tt s' ->
  sited (module_ s) -> sited (module_ s').
Proof.
  apply (Visit_related ast filter_ templates_ keeps_sited).
  - unfold keeps_sited; auto.
  - unfold keeps_sited; auto.
  - intros e. apply keeps_sited_step. intros s0. eexists. left. eauto.
  - intros i. apply keeps_sited_step. intros s0. eexists. left. eauto.
  - intros a. apply keeps_sited_step. intros s0. eexists. right.
    exists a. eauto.
  - apply keeps_sited_go.
Qed.

Lemma build_module_sited tu s' :
  build_module ast filter_ templates_ tu empty_module = Done tt s' ->
  sited (module_ s').
Proof.
  intros H.
  assert (Hk : keeps_sited (initial_state empty_module) s').
  { revert H.
    apply (build_module_related ast filter_ templates_ keeps_sited).
    - unfold keeps_sited; auto.
    - unfold keeps_sited; auto.
    - intros e. apply keeps_sited_step. intros s0. eexists. left. eauto.
    - intros i. apply keeps_sited_step. intros s0. eexists. left. eauto.
    - intros a. apply keeps_sited_step. intros s0. eexists. right.
      exists a. eauto.
    - apply keeps_sited_go. }
  apply Hk. repeat split; constructor.
Qed.

End Provenance.

(** ** The visited set grows, and the depth bound is enough *)
Section Termination.

Variable ast : AST.
Variable filter_ : DeclRef -> What.
Variable templates_ : bool.

Local Abbreviation within := (within ast).

Lemma grows_refl s : grows s s.
Proof. unfold grows. reflexivity. Qed.

Lemma grows_trans s1 s2 s3 : grows s1 s2 -> grows s2 s3 -> grows s1 s3.
Proof. unfold grows. set_solver. Qed.

Lemma grows_within fuel s s' : within fuel s -> grows s s' -> within fuel s'.
Proof.
  unfold within, grows, unvisited. intros H Hsub.
  eapply Nat.le_lt_trans; [|exact H].
  apply subseteq_size. intros x Hx.
  apply elem_of_difference in Hx as [Hx1 Hx2].
  apply elem_of_difference. split; [exact Hx1|].
  intros Hx3. apply Hx2, Hsub, Hx3.
Qed.

Lemma within_mark fuel d s :
  is_Some (ast !! d) -> d ∉ visited_ s -> within (S fuel) s ->
  within fuel (marked d s).
Proof.
  unfold within, unvisited; simpl. intros Hd Hv H.
  apply elem_of_dom in Hd.
  assert (Hlt : (size (dom ast ∖ ({[d]} ∪ visited_ s))
                 < size (dom ast ∖ visited_ s))%nat).
  { apply subset_size. apply elem_of_subset. split.
    - intros x Hx. apply elem_of_difference in Hx as [Hx1 Hx2].
      apply elem_of_difference. split; [exact Hx1|].
      intros Hx3. apply Hx2, elem_of_union. right. exact Hx3.
    - intros Hsub. specialize (Hsub d).
      assert (Hin : d ∈ dom ast ∖ visited_ s)
        by (apply elem_of_difference; split; assumption).
      apply Hsub, elem_of_difference in Hin as [_ Hout].
      apply Hout, elem_of_union. left. apply elem_of_singleton.
      reflexivity. }
  lia.
Qed.

Lemma grows_step fuel (m : M unit) :
  (forall s, exists s', m s = Done tt s' /\ visited_ s' = visited_ s) ->
  sound (within fuel) grows in_budget m.
Proof.
  intros H s _. destruct (H s) as [s' [-> Hv]].
  unfold grows. rewrite Hv. reflexivity.
Qed.

Lemma grows_go fuel decl flags definition :
  sound (within fuel) grows in_budget (go filter_ decl flags definition).
Proof.
  intros s _.
  destruct (go_finishes filter_ decl flags definition s) as (w & s' & Hgo).
  rewrite Hgo. unfold grows.
  rewrite (go_visited _ _ _ _ _ _ _ Hgo). reflexivity.
Qed.

Lemma Visit_budget fuel :
  forall d flags,
    sound (within fuel) grows in_budget
      (Visit ast filter_ templates_ fuel d flags).
Proof.
  induction fuel as [|fuel IH]; intros d flags s Hw.
  { unfold within in Hw. lia. }
  rewrite Visit_S.
  case_bool_decide as Hv; [apply grows_refl|].
  destruct (ast !! d) as [n|] eqn:Hd;
    [|rewrite Visitor_Visit_dangling by exact Hd; discriminate].
  rewrite (Visitor_Visit_node _ _ _ _ _ _ _ n Hd).
  assert (Hw1 : within fuel (marked d s)).
  { apply within_mark; [exists n; exact Hd | exact Hv | exact Hw]. }
  pose proof (sound_handler ast filter_ templates_
                (within fuel) grows in_budget) as Hh.
  specialize (Hh grows_refl grows_trans (grows_within fuel)).
  specialize (Hh ltac:(discriminate) ltac:(discriminate)).
  specialize (Hh (fun e => grows_step fuel (emit e)
                    (fun s => ex_intro _ _ (conj eq_refl eq_refl)))).
  specialize (Hh (fun a => grows_step fuel (modify_module (add_assert a))
                    (fun s => ex_intro _ _ (conj eq_refl eq_refl)))).
  specialize (Hh (fun decl fl b _ => grows_go fuel decl fl b)).
  specialize (Hh (Visit ast filter_ templates_ fuel) IH d n flags Hd
                _ Hw1).
  destruct (handler _ _ _ _ _ d n flags (marked d s)) as [[] s'|f];
    [|exact Hh].
  unfold grows in *. simpl in Hh. set_solver.
Qed.

Lemma grows_emit e : sound (fun _ => True) grows (fun _ => True) (emit e).
Proof. intros s _. unfold grows. simpl. reflexivity. Qed.

Lemma grows_mark i :
  sound (fun _ => True) grows (fun _ => True) (mark_visited i).
Proof. intros s _. unfold grows. simpl. set_solver. Qed.

Lemma grows_add_assert a :
  sound (fun _ => True) grows (fun _ => True)
    (modify_module (add_assert a)).
Proof. intros s _. unfold grows. simpl. reflexivity. Qed.

Lemma grows_go_anywhere decl flags definition :
  sound (fun _ => True) grows (fun _ => True)
    (go filter_ decl flags definition).
Proof.
  intros s _.
  destruct (go_finishes filter_ decl flags definition s) as (w & s1 & Hgo).
  rewrite Hgo. unfold grows.
  rewrite (go_visited _ _ _ _ _ _ _ Hgo). reflexivity.
Qed.

(** Along a traversal the visited set only grows. *)
Lemma Visit_grows fuel d flags s s' :
  Visit ast filter_ templates_ fuel d flags s = Done tt s' ->
  visited_ s ⊆ visited_ s'.
Proof.
  apply (Visit_related ast filter_ templates_ grows).
  - apply grows_refl.
  - apply grows_trans.
  - apply grows_emit.
  - apply grows_mark.
  - apply grows_add_assert.
  - intros. apply grows_go_anywhere.
Qed.

(** A visit that finishes leaves its declaration in the visited set. *)
Lemma Visit_marks fuel d flags s s' :
  Visit ast filter_ templates_ fuel d flags s = Done tt s' ->
  d ∈ visited_ s'.
Proof.
  destruct fuel as [|fuel]; [rewrite Visit_O | rewrite Visit_S];
    case_bool_decide as Hv; try discriminate;
    try (intros [= <-]; exact Hv).
  intros H.
  assert (Hg : grows (marked d s) s').
  { revert H. apply (Visitor_Visit_related ast filter_ templates_ grows).
    - apply grows_refl.
    - apply grows_trans.
    - apply grows_emit.
    - apply grows_mark.
    - apply grows_add_assert.
    - intros. apply grows_go_anywhere. }
  unfold grows in Hg. simpl in Hg. set_solver.
Qed.

(** A visit of a declaration already in the visited set does nothing,
    whatever the flags and the budget. *)
Lemma Visit_seen fuel d flags s :
  d ∈ visited_ s ->
  Visit ast filter_ templates_ fuel d flags s = Done tt s.
Proof.
  intros Hv.
  destruct fuel as [|fuel]; [rewrite Visit_O | rewrite Visit_S];
    case_bool_decide; try reflexivity; contradiction.
Qed.

(** From any state, a budget above the number of nodes not yet visited
    is never exhausted. *)
Lemma Visit_enough_fuel fuel d flags s :
  (size (unvisited ast s) < fuel)%nat ->
  Visit ast filter_ templates_ fuel d flags s <> Abort OutOfFuel.
Proof.
  intros Hw Hrun. pose proof (Visit_budget fuel d flags s Hw) as H.
  rewrite Hrun in H. apply H. reflexivity.
Qed.

(** [build_module] never stops for lack of budget: it finishes, or
    fails on an [assert] or on a pointer out of the graph. *)
Lemma build_module_in_budget tu m :
  build_module ast filter_ templates_ tu m <> Abort OutOfFuel.
Proof.
  unfold build_module. intros Hrun.
  assert (Hs : sound (within (depth_bound ast)) grows in_budget
                 (bind (deref ast tu) (fun n =>
                    VisitTranslationUnitDecl
                      (Visit ast filter_ templates_ (depth_bound ast))
                      tu n no_flags))).
  { apply sound_deref; [discriminate|]. intros n _.
    apply sound_VisitTranslationUnitDecl.
    - apply grows_refl.
    - apply grows_trans.
    - apply grows_within.
    - discriminate.
    - intros; apply Visit_budget. }
  assert (Hw : within (depth_bound ast) (initial_state m)).
  { unfold within, unvisited, depth_bound, initial_state; simpl.
    rewrite difference_empty_L, size_dom. lia. }
  specialize (Hs _ Hw). rewrite Hrun in Hs. apply Hs. reflexivity.
Qed.

End Termination.

(** ** The classification core and the bucket rule *)

(** C1.  [go] asks the Filter once and classifies by its verdict.  A
    Definition verdict at a defining occurrence reports Definition and
    leaves [decl] pushed on the definition lists, as the bucket rule
    places it: on the main list unless [in_template] is set, on the
    template list when either flag is set.  A Definition verdict at a
    non-defining occurrence is demoted: it reports Declaration and
    pushes [decl] on the declaration lists in the same way, as does a
    Declaration verdict.  A Nothing verdict reports Nothing and leaves
    every list as it was.  The lists not named keep their contents. *)
Theorem go_classifies (filter_ : DeclRef -> What) (decl : DeclRef)
    (flags : Flags) (at_definition : bool) (s : State) :
  let main (l : DeclList) :=
    if in_template flags then l else l ++ [decl] in
  let template (l : DeclList) :=
    if in_template flags || in_specialization flags then l ++ [decl]
    else l in
  let m := module_ s in
  let asked := events_ s ++ [ShouldInclude decl] in
  let in_definitions :=
    {| definitions_ := main (definitions_ m);
       declarations_ := declarations_ m;
       template_definitions_ := template (template_definitions_ m);
       template_declarations_ := template_declarations_ m;
       asserts_ := asserts_ m |} in
  let in_declarations :=
    {| definitions_ := definitions_ m;
       declarations_ := main (declarations_ m);
       template_definitions_ := template_definitions_ m;
       template_declarations_ := template (template_declarations_ m);
       asserts_ := asserts_ m |} in
  go filter_ decl flags at_definition s =
    match filter_ decl, at_definition with
    | DEFINITION, true =>
        Done DEFINITION
          {| module_ := in_definitions; visited_ := visited_ s;
             events_ := asked |}
    | DEFINITION, false | DECLARATION, _ =>
        Done DECLARATION
          {| module_ := in_declarations; visited_ := visited_ s;
             events_ := asked |}
    | NOTHING, _ =>
        Done NOTHING
          {| module_ := m; visited_ := visited_ s; events_ := asked |}
    end.
Proof.
  intros main template m asked in_definitions in_declarations.
  rewrite go_run. unfold with_module, consulted.
  rewrite add_definition_eq, add_declaration_eq.
  rewrite !add_decl_fst, !add_decl_snd.
  destruct (filter_ decl), at_definition; reflexivity.
Qed.

(** C2.  The bucket rule of [add_decl], which both [add_definition] and
    [add_declaration] apply to their pair of lists: under [in_template]
    the declaration is appended to the template list only; otherwise it
    is appended to the main list, and to the template list as well when
    [in_specialization] is set. *)
Theorem add_decl_bucket_rule (decls tdecls : DeclList) (d : DeclRef)
    (flags : Flags) (m : Module) :
  add_decl decls tdecls d flags
  = (if in_template flags then (decls, tdecls ++ [d])
     else if in_specialization flags then (decls ++ [d], tdecls ++ [d])
     else (decls ++ [d], tdecls))
  /\ add_definition d flags m
     = (let '(ds, ts) :=
          add_decl (definitions_ m) (template_definitions_ m) d flags in
        {| definitions_ := ds;
           declarations_ := declarations_ m;
           template_definitions_ := ts;
           template_declarations_ := template_declarations_ m;
           asserts_ := asserts_ m |})
  /\ add_declaration d flags m
     = (let '(ds, ts) :=
          add_decl (declarations_ m) (template_declarations_ m) d flags in
        {| definitions_ := definitions_ m;
           declarations_ := ds;
           template_definitions_ := template_definitions_ m;
           template_declarations_ := ts;
           asserts_ := asserts_ m |}).
Proof.
  split; [|split; reflexivity].
  unfold add_decl, push_back.
  destruct (in_template flags), (in_specialization flags); reflexivity.
Qed.

(** ** The cycle guard *)

Lemma Visit_except_S ast filter_ templates_ x fuel d flags s :
  Visit_except ast filter_ templates_ x (S fuel) d flags s =
    if bool_decide (d = x) then Done tt s
    else if bool_decide (d ∈ visited_ s) then Done tt s
    else Visitor_Visit ast filter_ templates_
           (Visit_except ast filter_ templates_ x fuel) d flags
           (marked d s).
Proof.
  simpl. case_bool_decide; [reflexivity|].
  unfold bind at 1, is_visited, getID.
  repeat case_bool_decide; try reflexivity; contradiction.
Qed.

Lemma Visit_except_O ast filter_ templates_ x d flags s :
  Visit_except ast filter_ templates_ x O d flags s =
    if bool_decide (d = x) then Done tt s
    else if bool_decide (d ∈ visited_ s) then Done tt s
    else Abort OutOfFuel.
Proof.
  simpl. case_bool_decide; [reflexivity|].
  unfold bind at 1, is_visited, getID.
  repeat case_bool_decide; try reflexivity; contradiction.
Qed.

Lemma once_refl {A} x (m : M A) : same_once_visited x m m.
Proof. intros s _. reflexivity. Qed.

Lemma once_bind {A B} x (m1 m2 : M A) (k1 k2 : A -> M B) :
  same_once_visited x m1 m2 -> keeps_visited x m1 ->
  (forall a, same_once_visited x (k1 a) (k2 a)) ->
  same_once_visited x (bind m1 k1) (bind m2 k2).
Proof.
  intros Hm Hkeep Hk s Hx. unfold bind. rewrite (Hm s Hx).
  destruct (m1 s) as [a s1|f] eqn:H1; [|reflexivity].
  apply Hk. eapply Hkeep; eassumption.
Qed.

Lemma keeps_bind {A B} x (m : M A) (k : A -> M B) :
  keeps_visited x m -> (forall a, keeps_visited x (k a)) ->
  keeps_visited x (bind m k).
Proof.
  intros Hm Hk s b s' Hx. unfold bind.
  destruct (m s) as [a s1|f] eqn:H1; [|discriminate].
  intros H. eapply Hk; [|exact H]. eapply Hm; eassumption.
Qed.

Lemma keeps_ret {A} x (a : A) : keeps_visited x (ret a).
Proof. intros s b s' Hx [= _ <-]. exact Hx. Qed.

Lemma keeps_for_each {X} x (l : list X) (body : X -> M unit) :
  (forall i, keeps_visited x (body i)) ->
  keeps_visited x (for_each l body).
Proof.
  intros Hb. induction l as [|i l IH]; simpl.
  - apply keeps_ret.
  - apply keeps_bind; [apply Hb | intros _; exact IH].
Qed.

Lemma once_for_each {X} x (l : list X) (b1 b2 : X -> M unit) :
  (forall i, same_once_visited x (b1 i) (b2 i)) ->
  (forall i, keeps_visited x (b1 i)) ->
  same_once_visited x (for_each l b1) (for_each l b2).
Proof.
  intros Hb Hkeep. induction l as [|i l IH]; simpl.
  - apply once_refl.
  - apply once_bind; [apply Hb | apply Hkeep | intros _; exact IH].
Qed.

Lemma keeps_assert x c : keeps_visited x (assert c).
Proof. destruct c; intros s a s' Hx; [intros [= _ <-]; exact Hx | discriminate]. Qed.

Lemma keeps_go_ x filter_ decl flags definition :
  keeps_visited x
    (bind (go filter_ decl flags definition) (fun _ => ret tt)).
Proof.
  apply keeps_bind; [|intros; apply keeps_ret].
  intros s w s' Hx H. rewrite (go_visited _ _ _ _ _ _ _ H). exact Hx.
Qed.

Lemma keeps_Visit x ast filter_ templates_ fuel d flags :
  keeps_visited x (Visit ast filter_ templates_ fuel d flags).
Proof.
  intros s [] s' Hx H. eapply Visit_grows; eassumption.
Qed.

Lemma once_handler x ast filter_ templates_ V1 V2 c d n flags :
  (forall i f, same_once_visited x (V1 i f) (V2 i f)) ->
  (forall i f, keeps_visited x (V1 i f)) ->
  same_once_visited x
    (handler ast filter_ templates_ V1 c d n flags)
    (handler ast filter_ templates_ V2 c d n flags).
Proof.
  intros HV Hkeep.
  assert (Hc : forall l f, same_once_visited x
                 (for_each l (fun i => V1 i f))
                 (for_each l (fun i => V2 i f)))
    by (intros; apply once_for_each; intros; [apply HV | apply Hkeep]).
  assert (Hgo : forall decl f,
             keeps_visited x
               (if templates_
                then bind (go filter_ decl f true) (fun _ => ret tt)
                else ret tt))
    by (intros; destruct templates_; [apply keeps_go_ | apply keeps_ret]).
  destruct c; simpl; try apply once_refl.
  - unfold VisitTranslationUnitDecl.
    apply once_bind; [apply once_refl | apply keeps_assert | intros; apply Hc].
  - unfold VisitNamespaceDecl.
    apply once_bind; [apply once_refl | apply keeps_assert | intros; apply Hc].
  - unfold VisitCXXRecordDecl.
    destruct (isImplicit n); [apply once_refl|].
    destruct (negb (in_specialization flags)
              && isa ClassTemplateSpecializationDecl (getKind n));
      [apply once_refl|].
    apply once_bind; [apply Hc | | intros; apply once_refl].
    apply keeps_for_each. intros; apply Hkeep.
  - unfold VisitFunctionTemplateDecl.
    apply once_bind; [apply once_refl | apply Hgo | intros; apply Hc].
  - unfold VisitClassTemplateDecl.
    apply once_bind; [| |intros; apply Hc].
    + destruct templates_; [|apply once_refl].
      destruct (getTemplatedDecl n); [apply HV | apply once_refl].
    + destruct templates_; [|apply keeps_ret].
      destruct (getTemplatedDecl n); [apply Hkeep|].
      intros s a s' _; discriminate.
  - unfold VisitVarTemplateDecl.
    apply once_bind; [apply once_refl | apply Hgo | intros; apply Hc].
  - unfold VisitLinkageSpecDecl.
    apply once_bind; [apply once_refl | apply keeps_assert | intros; apply Hc].
  - unfold VisitFriendDecl.
    destruct (getFriendDecl n); [apply HV | apply once_refl].
Qed.

Lemma once_Visitor_Visit x ast filter_ templates_ V1 V2 d flags :
  (forall i f, same_once_visited x (V1 i f) (V2 i f)) ->
  (forall i f, keeps_visited x (V1 i f)) ->
  same_once_visited x
    (Visitor_Visit ast filter_ templates_ V1 d flags)
    (Visitor_Visit ast filter_ templates_ V2 d flags).
Proof.
  intros HV Hkeep s Hx. unfold Visitor_Visit, bind, deref.
  destruct (ast !! d) as [n|]; simpl; [|reflexivity].
  apply (once_handler x ast filter_ templates_ V1 V2 _ d n flags HV Hkeep).
  exact Hx.
Qed.

(** Once [x] is recorded as visited, cutting the edges into [x] changes
    nothing: the guard already turns every visit of [x] away. *)
Lemma Visit_except_once_visited x ast filter_ templates_ fuel d flags :
  same_once_visited x (Visit ast filter_ templates_ fuel d flags)
    (Visit_except ast filter_ templates_ x fuel d flags).
Proof.
  revert d flags. induction fuel as [|fuel IH]; intros d flags s Hx.
  - rewrite Visit_except_O, Visit_O.
    case_bool_decide as Hd; [|reflexivity].
    subst d. rewrite bool_decide_eq_true_2 by exact Hx. reflexivity.
  - rewrite Visit_except_S, Visit_S.
    case_bool_decide as Hd.
    + subst d. rewrite bool_decide_eq_true_2 by exact Hx. reflexivity.
    + case_bool_decide; [reflexivity|].
      apply (once_Visitor_Visit x ast filter_ templates_
               (Visit ast filter_ templates_ fuel)
               (Visit_except ast filter_ templates_ x fuel) d flags).
      * exact IH.
      * intros; apply keeps_Visit.
      * simpl. apply elem_of_union_r, Hx.
Qed.

(** C4.  The guard of [Visit] turns away every visit of a declaration
    that is already in the visited set, before dispatch and with the
    state untouched; and a declaration is put in the set before its own
    handler runs.  So the first visit of [d] is its dispatch from the
    state in which [d] is marked, with every edge that leads back to
    [d] (a cycle of the graph) doing nothing; a visit of [d] from any
    state that holds [d] does nothing, whatever the flags and the
    budget; and so does every visit of [d] after its first visit has
    finished.  The insertions that visiting [d] makes are made once. *)
Theorem second_visit_returns_at_guard (ast : AST)
    (filter_ : DeclRef -> What) (templates_ : bool)
    (fuel fuel2 : nat) (d : DeclRef) (flags flags2 : Flags)
    (s s2 : State) :
  d ∉ visited_ s ->
  Visit ast filter_ templates_ (S fuel) d flags s
  = Visitor_Visit ast filter_ templates_
      (Visit_except ast filter_ templates_ d fuel) d flags (marked d s)
  /\ (d ∈ visited_ s2 ->
      Visit ast filter_ templates_ fuel2 d flags2 s2 = Done tt s2)
  /\ (forall s1,
        Visit ast filter_ templates_ (S fuel) d flags s = Done tt s1 ->
        visited_ s1 ⊆ visited_ s2 ->
        Visit ast filter_ templates_ fuel2 d flags2 s2 = Done tt s2).
Proof.
  intros Hv. split; [|split].
  - rewrite Visit_S. rewrite bool_decide_eq_false_2 by exact Hv.
    symmetry.
    apply (once_Visitor_Visit d ast filter_ templates_
             (Visit ast filter_ templates_ fuel)
             (Visit_except ast filter_ templates_ d fuel) d flags).
    + intros; apply Visit_except_once_visited.
    + intros; apply keeps_Visit.
    + simpl. apply elem_of_union_l, elem_of_singleton. reflexivity.
  - apply Visit_seen.
  - intros s1 Hfirst Hlater. apply Visit_seen.
    apply Hlater. eapply Visit_marks. exact Hfirst.
Qed.

Lemma second_visit_witness :
  (Visit tu_cycle accept_all false 3 1 no_flags
     (initial_state empty_module)
   = Visitor_Visit tu_cycle accept_all false
       (Visit_except tu_cycle accept_all false 1 2) 1 no_flags
       (marked 1 (initial_state empty_module))
   /\ (1 ∈ visited_ (marked 1 (initial_state empty_module)) ->
       Visit tu_cycle accept_all false 0 1 (set_template no_flags)
         (marked 1 (initial_state empty_module))
       = Done tt (marked 1 (initial_state empty_module)))
   /\ (forall s1,
         Visit tu_cycle accept_all false 3 1 no_flags
           (initial_state empty_module) = Done tt s1 ->
         visited_ s1 ⊆ visited_ (marked 1 (initial_state empty_module)) ->
         Visit tu_cycle accept_all false 0 1 (set_template no_flags)
           (marked 1 (initial_state empty_module))
         = Done tt (marked 1 (initial_state empty_module))))
  /\ output_lists
       (match Visit tu_cycle accept_all false 3 1 no_flags
                (initial_state empty_module) with
        | Done _ s => module_ s
        | Abort _ => empty_module
        end)
     = [1].
Proof.
  split; [|vm_compute; reflexivity].
  apply (second_visit_returns_at_guard tu_cycle accept_all false
           2 0 1 no_flags (set_template no_flags)
           (initial_state empty_module)
           (marked 1 (initial_state empty_module))).
  simpl. apply not_elem_of_empty.
Defined.

(** ** Functions: the comment, the Filter, the static locals *)

Lemma scan_static_local_run ast filter_ flags i s :
  is_Some (ast !! i) ->
  scan_static_local ast filter_ flags i s =
    if is_static_local ast i then
      Done tt (with_module (classify filter_ flags (module_ s) i)
                 (consulted i s))
    else Done tt s.
Proof.
  intros [ni Hi]. unfold scan_static_local, is_static_local, bind, deref.
  rewrite Hi. simpl.
  destruct (isa VarDecl (getKind ni)); [|reflexivity].
  destruct (isStaticLocal ni); [|reflexivity]. simpl.
  rewrite go_run. unfold classify.
  destruct (filter_ i); reflexivity.
Qed.

(** The scan of a list of children: every static local among them is
    classified in turn, and nothing else changes. *)
Lemma scan_run ast filter_ flags l s :
  Forall (fun i => is_Some (ast !! i)) l ->
  for_each l (scan_static_local ast filter_ flags) s =
    Done tt
      {| module_ :=
           fold_left (classify filter_ flags)
             (List.filter (is_static_local ast) l) (module_ s);
         visited_ := visited_ s;
         events_ :=
           events_ s
           ++ map ShouldInclude (List.filter (is_static_local ast) l) |}.
Proof.
  intros Hl. revert s. induction Hl as [|i l Hi Hl IH]; intros s; simpl.
  - rewrite app_nil_r. destruct s; reflexivity.
  - unfold bind. rewrite (scan_static_local_run _ _ _ _ _ Hi).
    destruct (is_static_local ast i); rewrite IH; simpl.
    + rewrite <- app_assoc. reflexivity.
    + reflexivity.
Qed.

(** From the dispatch: for a node of any function class that reaches
    [VisitFunctionDecl] (a member function only if it is not deleted),
    at its defining occurrence and past the template gate, an attached
    comment is handed to the SpecCollector first and the Filter is
    consulted next, whatever the guarded [Visit] given to the
    handlers. *)
Lemma specification_collected_on_dispatch (ast : AST)
    (filter_ : DeclRef -> What) (templates_ : bool)
    (V : DeclRef -> Flags -> M unit) (decl : DeclRef) (n : DeclNode)
    (flags : Flags) (c : string) (s : State) :
  ast !! decl = Some n ->
  reaches_VisitFunctionDecl n ->
  negb templates_ && isDependentContext n = false ->
  getDefinition n = Some decl ->
  getRawCommentForDeclNoCache n = Some c ->
  children_in ast n ->
  exists s' rest,
    Visitor_Visit ast filter_ templates_ V decl flags s = Done tt s'
    /\ events_ s'
       = events_ s ++ AddSpecification decl c :: ShouldInclude decl :: rest.
Proof.
  intros Hn Hr Hgate Hdef Hc Hin.
  rewrite (Visitor_Visit_node _ _ _ _ _ _ _ n Hn).
  pose proof (scan_run ast filter_ flags (decls n)) as Hscan.
  assert (Hf : handler ast filter_ templates_ V
                 (resolve overridden chain_depth (getKind n)) decl n flags s
               = VisitFunctionDecl ast filter_ templates_ decl n flags s).
  { unfold reaches_VisitFunctionDecl in Hr.
    destruct (resolve overridden chain_depth (getKind n));
      try contradiction; simpl;
      unfold VisitCXXConstructorDecl, VisitCXXDestructorDecl,
        VisitCXXMethodDecl; rewrite ?Hr; reflexivity. }
  rewrite Hf. unfold VisitFunctionDecl.
  rewrite Hgate, Hc. rewrite bool_decide_eq_true_2 by exact Hdef.
  unfold bind at 1, emit. unfold bind at 1. rewrite go_run.
  destruct (filter_ decl) eqn:Hv; simpl.
  - eexists _, []. split; [reflexivity|]. simpl.
    rewrite <- app_assoc. reflexivity.
  - eexists _, []. split; [reflexivity|]. simpl.
    rewrite <- app_assoc. reflexivity.
  - rewrite (Hscan _ Hin). eexists _, _.
    split; [reflexivity|]. simpl.
    rewrite <- !app_assoc. reflexivity.
Qed.

(** C10, as the code has it.  The first visit of a function whose
    dispatch arrives in [VisitFunctionDecl] (any function that is not a
    member; a method, constructor, destructor or conversion only if it
    is not deleted), at its defining occurrence and past the template
    gate, hands an attached comment to the SpecCollector first and
    consults the Filter next, whatever the verdict turns out to be: the
    visit finishes, and the calls it adds to the trace begin with
    [add_specification] followed by [shouldInclude]. *)
Theorem specification_collected_unless_deleted (ast : AST)
    (filter_ : DeclRef -> What) (templates_ : bool) (fuel : nat)
    (decl : DeclRef) (n : DeclNode) (flags : Flags) (c : string)
    (s : State) :
  ast !! decl = Some n ->
  reaches_VisitFunctionDecl n ->
  negb templates_ && isDependentContext n = false ->
  getDefinition n = Some decl ->
  getRawCommentForDeclNoCache n = Some c ->
  children_in ast n ->
  decl ∉ visited_ s ->
  exists s' rest,
    Visit ast filter_ templates_ (S fuel) decl flags s = Done tt s'
    /\ events_ s'
       = events_ s ++ AddSpecification decl c :: ShouldInclude decl :: rest.
Proof.
  intros Hn Hr Hgate Hdef Hc Hin Hv. rewrite Visit_S.
  rewrite bool_decide_eq_false_2 by exact Hv.
  apply (specification_collected_on_dispatch ast filter_ templates_
           (Visit ast filter_ templates_ fuel) decl n flags c (marked decl s)
           Hn Hr Hgate Hdef Hc Hin).
Qed.

Lemma specification_collected_witness :
  exists s' rest,
    Visit tu_static_local (fun _ => NOTHING) false 1 1 no_flags
      (initial_state empty_module) = Done tt s'
    /\ events_ s' = [] ++ AddSpecification 1 "spec" :: ShouldInclude 1 :: rest.
Proof.
  apply (specification_collected_unless_deleted tu_static_local
           (fun _ => NOTHING) false 0 1
           (commented "spec"
              (node FunctionDecl "Function" (Some 1) None [2; 3]))
           no_flags "spec" (initial_state empty_module)).
  - vm_compute. reflexivity.
  - vm_compute. exact Logic.I.
  - reflexivity.
  - reflexivity.
  - reflexivity.
  - repeat constructor; eexists; vm_compute; reflexivity.
  - simpl. apply not_elem_of_empty.
Defined.

(** C10, as stated, fails for deleted member functions: the deleted
    method 1 of [tu_commented_methods] is a function visited at its
    defining occurrence, outside any dependent context and with a
    comment attached, and the build hands the SpecCollector the comment
    of the method 2 only. *)
Lemma deleted_method_comment_not_collected :
  exists s n c,
    build_module tu_commented_methods (fun _ => NOTHING) false 0
      empty_module = Done tt s
    /\ tu_commented_methods !! 1 = Some n
    /\ isa FunctionDecl (getKind n) = true
    /\ getDefinition n = Some 1
    /\ isDependentContext n = false
    /\ getRawCommentForDeclNoCache n = Some c
    /\ 1 ∈ visited_ s
    /\ events_ s = [AddSpecification 2 "kept"; ShouldInclude 2].
Proof.
  eexists _, _, _. split; [vm_compute; reflexivity|].
  split; [vm_compute; reflexivity|].
  repeat split.
Qed.




(** ** Dispatch, class by class *)

Lemma class_eqb_eq a b : class_eqb a b = true <-> a = b.
Proof.
  split.
  - destruct a, b; intros H;
      (reflexivity || (vm_compute in H; discriminate)).
  - intros ->. unfold class_eqb. apply Pos.eqb_refl.
Qed.

Lemma var_dispatch k :
  isa VarDecl k = true -> resolve overridden chain_depth k = VarDecl.
Proof. destruct k; vm_compute; intros H; (reflexivity || discriminate). Qed.

Lemma enum_constant_dispatch k :
  isa EnumConstantDecl k = true ->
  resolve overridden chain_depth k = EnumConstantDecl.
Proof. destruct k; vm_compute; intros H; (reflexivity || discriminate). Qed.

Lemma method_dispatch k :
  isa CXXMethodDecl k = true ->
  resolve overridden chain_depth k = CXXMethodDecl
  \/ resolve overridden chain_depth k = CXXConstructorDecl
  \/ resolve overridden chain_depth k = CXXDestructorDecl.
Proof. destruct k; vm_compute; intros H; (discriminate || tauto). Qed.

Lemma function_dispatch k :
  isa FunctionDecl k = true ->
  resolve overridden chain_depth k = FunctionDecl
  \/ resolve overridden chain_depth k = CXXMethodDecl
  \/ resolve overridden chain_depth k = CXXConstructorDecl
  \/ resolve overridden chain_depth k = CXXDestructorDecl.
Proof. destruct k; vm_compute; intros H; (discriminate || tauto). Qed.

Lemma record_dispatch k :
  isa RecordDecl k = true ->
  resolve overridden chain_depth k = TagDecl
  \/ resolve overridden chain_depth k = CXXRecordDecl.
Proof. destruct k; vm_compute; intros H; (discriminate || tauto). Qed.

Lemma output_lists_split (m : Module) (d : DeclRef) :
  d ∈ output_lists m ->
  d ∈ definitions_ m ++ template_definitions_ m
  \/ d ∈ declarations_ m ++ template_declarations_ m.
Proof. unfold output_lists. rewrite !elem_of_app. tauto. Qed.

(** ** Every call of [go], read off the node *)
Section OwnSite.

Variable ast : AST.
Variable filter_ : DeclRef -> What.
Variable templates_ : bool.

Lemma enumerator_class e ne i ni :
  enumerators_typed ast ->
  ast !! e = Some ne -> i ∈ enumerators ne -> ast !! i = Some ni ->
  isa EnumConstantDecl (getKind ni) = true.
Proof.
  intros Ht He Hi Hni. specialize (Ht e ne He). simpl in Ht.
  rewrite forallb_forall in Ht.
  apply list_elem_of_In in Hi. specialize (Ht i Hi).
  unfold is_enumerator in Ht. rewrite Hni in Ht. exact Ht.
Qed.

Lemma go_site_own_site decl b n :
  enumerators_typed ast ->
  ast !! decl = Some n ->
  go_site ast filter_ templates_ decl b ->
  own_site templates_ decl n b.
Proof.
  intros Ht Hn Hsite. unfold own_site, at_definition_or_first_seen.
  destruct Hsite as
    [ d n' Hn' Hh Htmpl | d n' Hn' Hh | d n' Hn' Hr Hdef
    | d n' Hn' Hr Hdef Hprev | d n' Hn' Hr Hgate Hdef
    | d n' Hn' Hr Hgate Hdef Hprev
    | i ni d n' Hn' Hr Hgate Hdef Hf Hi Hni Hvar Hst
    | d n' Hn' Hh | d n' Hn' Hh Hgate | d n' Hn' Hh Hcan
    | i d n' Hn' Hh Hcan Hi ].
  - rewrite Hn in Hn'. injection Hn' as <-.
    destruct Hh as [Hh | Hh]; rewrite Hh; auto.
  - rewrite Hn in Hn'. injection Hn' as <-. rewrite Hh. reflexivity.
  - rewrite Hn in Hn'. injection Hn' as <-.
    destruct Hr as [Hh | [Hh Himp]]; rewrite Hh; auto.
  - rewrite Hn in Hn'. injection Hn' as <-.
    destruct Hr as [Hh | [Hh Himp]]; rewrite Hh; auto.
  - rewrite Hn in Hn'. injection Hn' as <-.
    unfold reaches_VisitFunctionDecl in Hr.
    destruct (resolve overridden chain_depth (getKind n));
      try contradiction; auto.
  - rewrite Hn in Hn'. injection Hn' as <-.
    unfold reaches_VisitFunctionDecl in Hr.
    destruct (resolve overridden chain_depth (getKind n));
      try contradiction; auto 6.
  - rewrite Hn in Hni. injection Hni as <-.
    rewrite (var_dispatch _ Hvar). auto.
  - rewrite Hn in Hn'. injection Hn' as <-. rewrite Hh. reflexivity.
  - rewrite Hn in Hn'. injection Hn' as <-. rewrite Hh. auto.
  - rewrite Hn in Hn'. injection Hn' as <-. rewrite Hh. auto.
  - pose proof (enumerator_class _ _ _ _ Ht Hn' Hi Hn) as Hk.
    rewrite (enum_constant_dispatch _ Hk). reflexivity.
Qed.

(** An entry of any of the four lists of a built module was passed to
    [go] at a site the node allows. *)
Lemma built_entry_own_site tu s d n :
  enumerators_typed ast ->
  build_module ast filter_ templates_ tu empty_module = Done tt s ->
  ast !! d = Some n ->
  (d ∈ definitions_ (module_ s) ++ template_definitions_ (module_ s) ->
   own_site templates_ d n true)
  /\ (d ∈ declarations_ (module_ s) ++ template_declarations_ (module_ s) ->
      exists b, own_site templates_ d n b).
Proof.
  intros Ht Hrun Hn.
  destruct (build_module_sited _ _ _ _ _ Hrun) as (H1 & H2 & H3 & H4).
  rewrite Forall_forall in H1, H2, H3, H4.
  split; intros Hd; apply elem_of_app in Hd.
  - assert (He : definition_entry ast filter_ templates_ d)
      by (destruct Hd; auto).
    destruct He as [_ Hsite]. eapply go_site_own_site; eassumption.
  - assert (He : declaration_entry ast filter_ templates_ d)
      by (destruct Hd; auto).
    destruct He as [[_ [b Hsite]] | [_ Hsite]]; eexists;
      eapply go_site_own_site; eassumption.
Qed.

End OwnSite.

(** ** Canonical definitions *)

(** C3, as the code has it.  In a built module, a record (struct,
    class or union) or function declaration stands in a definition list
    only if it is its own definition; a non-defining occurrence stands
    in no definition list, and stands in a declaration list only if
    there is no definition at all and it has no previous declaration.
    Variables and enums are not under this rule: [VisitVarDecl] and
    [VisitEnumDecl] never ask for the definition. *)
Theorem canonical_definition_of_records_and_functions (ast : AST)
    (filter_ : DeclRef -> What) (templates_ : bool) (tu : DeclRef)
    (s : State) (d : DeclRef) (n : DeclNode) :
  enumerators_typed ast ->
  build_module ast filter_ templates_ tu empty_module = Done tt s ->
  ast !! d = Some n ->
  isa RecordDecl (getKind n) || isa FunctionDecl (getKind n) = true ->
  (d ∈ definitions_ (module_ s) ++ template_definitions_ (module_ s) ->
   getDefinition n = Some d)
  /\ (getDefinition n <> Some d ->
      d ∈ declarations_ (module_ s) ++ template_declarations_ (module_ s) ->
      getDefinition n = None /\ getPreviousDecl n = None).
Proof.
  intros Ht Hrun Hn Hk.
  destruct (built_entry_own_site ast filter_ templates_ tu s d n Ht Hrun Hn)
    as [Hdef Hdecl].
  assert (Hown : forall b, own_site templates_ d n b ->
                           at_definition_or_first_seen d n b).
  { intros b. unfold own_site. apply orb_true_iff in Hk.
    destruct Hk as [Hk | Hk].
    - destruct (record_dispatch _ Hk) as [-> | ->]; tauto.
    - destruct (function_dispatch _ Hk) as [-> | [-> | [-> | ->]]]; tauto. }
  split.
  - intros Hd. destruct (Hown _ (Hdef Hd)) as [[_ H] | [H _]];
      [exact H | discriminate].
  - intros Hne Hd. destruct (Hdecl Hd) as [b Hb].
    destruct (Hown _ Hb) as [[_ H] | [_ H]]; [contradiction | exact H].
Qed.

Lemma typed_tu_record_function : enumerators_typed tu_record_function.
Proof.
  unfold enumerators_typed. apply (bool_decide_unpack _).
  vm_compute. exact Logic.I.
Defined.

Lemma canonical_definition_witness :
  (2 ∈ [2; 5] ++ [] -> Some 2 = Some 2)
  /\ (Some 2 <> Some 2 -> 2 ∈ [] ++ [] ->
      Some 2 = None /\ Some 1 = None).
Proof.
  apply (canonical_definition_of_records_and_functions tu_record_function
           accept_all false 0
           (match build_module tu_record_function accept_all false 0
                    empty_module with
            | Done _ s => s
            | Abort _ => initial_state empty_module
            end)
           2 (node CXXRecordDecl "CXXRecord" (Some 2) (Some 1) [3])).
  - exact typed_tu_record_function.
  - vm_compute. reflexivity.
  - vm_compute. reflexivity.
  - vm_compute. reflexivity.
Defined.

(** C3, as stated, fails for variables: in [tu_extern_var] the
    variable 1 is not a definition (its definition is 2), and both
    occurrences end in the definition list. *)
Lemma variable_declaration_emitted_as_definition :
  exists m n,
    built (build_module tu_extern_var accept_all true 0 empty_module)
    = Some m
    /\ tu_extern_var !! 1 = Some n
    /\ isa VarDecl (getKind n) = true
    /\ getDefinition n = Some 2
    /\ definitions_ m = [1; 2].
Proof.
  eexists _, _. split; [vm_compute; reflexivity|].
  split; [vm_compute; reflexivity|].
  repeat split.
Qed.

(** Nor does an enum follow the rule of the other tags: its canonical
    declaration is what [VisitEnumDecl] emits, defining or not. *)
Lemma opaque_enum_emitted_as_definition :
  exists m n,
    built (build_module tu_opaque_enum accept_all false 0 empty_module)
    = Some m
    /\ tu_opaque_enum !! 1 = Some n
    /\ isa TagDecl (getKind n) = true
    /\ getDefinition n = Some 2
    /\ definitions_ m = [1].
Proof.
  eexists _, _. split; [vm_compute; reflexivity|].
  split; [vm_compute; reflexivity|].
  repeat split.
Qed.

(** ** Deleted functions *)

(** C5, as the code has it.  A deleted method, constructor, destructor
    or conversion function is in none of the four lists of a built
    module. *)
Theorem deleted_members_excluded (ast : AST) (filter_ : DeclRef -> What)
    (templates_ : bool) (tu : DeclRef) (s : State) (d : DeclRef)
    (n : DeclNode) :
  enumerators_typed ast ->
  build_module ast filter_ templates_ tu empty_module = Done tt s ->
  ast !! d = Some n ->
  isa CXXMethodDecl (getKind n) = true ->
  isDeleted n = true ->
  d ∉ output_lists (module_ s).
Proof.
  intros Ht Hrun Hn Hk Hdel Hd.
  destruct (built_entry_own_site ast filter_ templates_ tu s d n Ht Hrun Hn)
    as [Hdef Hdecl].
  assert (Hown : exists b, own_site templates_ d n b).
  { destruct (output_lists_split _ _ Hd) as [Hd' | Hd'];
      [exists true; apply Hdef, Hd' | apply Hdecl, Hd']. }
  destruct Hown as [b Hb]. unfold own_site in Hb.
  destruct (method_dispatch _ Hk) as [Hr | [Hr | Hr]]; rewrite Hr in Hb;
    destruct Hb as [Hb _]; congruence.
Qed.

Lemma deleted_members_witness :
  3 ∉ output_lists
        {| definitions_ := [2; 5]; declarations_ := [];
           template_definitions_ := []; template_declarations_ := [];
           asserts_ := [] |}.
Proof.
  apply (deleted_members_excluded tu_record_function accept_all false 0
           (match build_module tu_record_function accept_all false 0
                    empty_module with
            | Done _ s => s
            | Abort _ => initial_state empty_module
            end)
           3 (deleted (node CXXConstructorDecl "CXXConstructor" (Some 3)
                         None []))).
  - exact typed_tu_record_function.
  - vm_compute. reflexivity.
  - vm_compute. reflexivity.
  - vm_compute. reflexivity.
  - reflexivity.
Defined.

(** C5, as stated, fails for functions that are not members: the
    deleted function 1 of [tu_deleted_function] is emitted. *)
Lemma deleted_function_emitted :
  exists m n,
    built (build_module tu_deleted_function accept_all false 0
             empty_module)
    = Some m
    /\ tu_deleted_function !! 1 = Some n
    /\ isa FunctionDecl (getKind n) = true
    /\ isDeleted n = true
    /\ 1 ∈ output_lists m.
Proof.
  eexists _, _. split; [vm_compute; reflexivity|].
  split; [vm_compute; reflexivity|].
  repeat split. vm_compute. set_solver.
Qed.

(** ** The printer of local declarations *)

Lemma append_assoc (a b c : string) : (a +:+ b) +:+ c = a +:+ b +:+ c.
Proof.
  induction a as [|x a IH]; [reflexivity|].
  change (String x ((a +:+ b) +:+ c) = String x (a +:+ b +:+ c)).
  rewrite IH. reflexivity.
Qed.

Lemma render_app marker (a b : list Printer.Item) :
  Printer.render marker (a ++ b)
  = Printer.render marker a +:+ Printer.render marker b.
Proof.
  induction a as [|i a IH]; [reflexivity|].
  change (Printer.render_item marker i +:+ Printer.render marker (a ++ b)
          = (Printer.render_item marker i +:+ Printer.render marker a)
            +:+ Printer.render marker b).
  rewrite IH, append_assoc. reflexivity.
Qed.

Lemma local_dispatch_variable k :
  isa VarDecl k = true ->
  resolve Printer.overridden chain_depth k = VarDecl.
Proof. destruct k; vm_compute; intros H; (reflexivity || discriminate). Qed.

Lemma local_dispatch_other k :
  isa VarDecl k = false ->
  resolve Printer.overridden chain_depth k = Decl.
Proof. destruct k; vm_compute; intros H; (reflexivity || discriminate). Qed.

Lemma VisitVarDecl_items {QualType Expr : Type}
    (cprint : Printer.ClangPrinter QualType Expr)
    (decl : Printer.LocalDecl QualType Expr) (print : Printer.CoqPrinter) :
  Printer.output_ (Printer.VisitVarDecl decl print cprint)
  = Printer.output_ print ++ local_decl_items cprint decl.
Proof.
  unfold Printer.VisitVarDecl, local_decl_items, Printer.ctor,
    Printer.output.
  destruct (Printer.getInit decl) as [init|]; simpl;
    repeat rewrite <- app_assoc; reflexivity.
Qed.

(** C8, as the code has it.  For a variable, [printLocalDecl] appends
    to the output exactly one 3-tuple: the name between double quotes,
    the term of the qualified type, and the initializer wrapped
    explicitly, [None] when there is none and the parenthesised
    application [(Some E)] of [Some] to the term of the expression when
    there is one. *)
Theorem printLocalDecl_variable {QualType Expr : Type} (marker : string)
    (cprint : Printer.ClangPrinter QualType Expr)
    (decl : Printer.LocalDecl QualType Expr) (print : Printer.CoqPrinter) :
  isa VarDecl (Printer.getKind decl) = true ->
  Printer.render marker
    (Printer.output_ (Printer.printLocalDecl cprint decl print))
  = Printer.render marker (Printer.output_ print)
    +:+ "(" +:+ dquote +:+ Printer.getNameAsString decl +:+ dquote
    +:+ ", "
    +:+ Printer.render marker
          (Printer.printQualType cprint (Printer.getType decl))
    +:+ ", "
    +:+ match Printer.getInit decl with
        | Some init =>
            "(Some "
            +:+ Printer.render marker (Printer.printExpr cprint init)
            +:+ ")"
        | None => "None"
        end
    +:+ ")".
Proof.
  intros Hk. unfold Printer.printLocalDecl, Printer.Visit.
  rewrite (local_dispatch_variable _ Hk), VisitVarDecl_items.
  unfold local_decl_items.
  destruct (Printer.getInit decl) as [init|];
    repeat rewrite render_app;
    cbn [Printer.render Printer.render_item];
    repeat rewrite append_assoc; reflexivity.
Qed.

Lemma printLocalDecl_variable_witness :
  Printer.render ""
    (Printer.output_
       (Printer.printLocalDecl placeholder_printer (local_x None)
          empty_output))
  = "(" +:+ dquote +:+ "x" +:+ dquote +:+ ", <int-type-term>, None)"
  /\ Printer.render ""
       (Printer.output_
          (Printer.printLocalDecl placeholder_printer (local_x (Some tt))
             empty_output))
     = "(" +:+ dquote +:+ "x" +:+ dquote
       +:+ ", <int-type-term>, (Some <E-term>))".
Proof.
  split.
  - apply (printLocalDecl_variable "" placeholder_printer (local_x None)
             empty_output). reflexivity.
  - apply (printLocalDecl_variable "" placeholder_printer
             (local_x (Some tt)) empty_output). reflexivity.
Defined.

(** C8, as stated, fails when there is an initializer: the text
    printed is not the tuple with a bare [Some E] in it. *)
Lemma initializer_printed_in_parentheses :
  Printer.render ""
    (Printer.output_
       (Printer.printLocalDecl placeholder_printer (local_x (Some tt))
          empty_output))
  <> "(" +:+ dquote +:+ "x" +:+ dquote
     +:+ ", <int-type-term>, Some <E-term>)".
Proof. vm_compute. discriminate. Qed.

(** C9.  For a declaration of any class that is not a variable's,
    [printLocalDecl] returns, having appended to the output stream
    the error marker and the message, and nothing else; what was
    written before is kept. *)
Theorem printLocalDecl_unexpected {QualType Expr : Type}
    (cprint : Printer.ClangPrinter QualType Expr)
    (decl : Printer.LocalDecl QualType Expr) (print : Printer.CoqPrinter) :
  isa VarDecl (Printer.getKind decl) = false ->
  Printer.output_ (Printer.printLocalDecl cprint decl print)
  = Printer.output_ print
    ++ [Printer.error_marker; Printer.text "unexpected local declaration"].
Proof.
  intros Hk. unfold Printer.printLocalDecl, Printer.Visit.
  rewrite (local_dispatch_other _ Hk).
  unfold Printer.VisitDecl, Printer.error, Printer.output. simpl.
  rewrite <- app_assoc. reflexivity.
Qed.

Lemma printLocalDecl_unexpected_witness :
  Printer.output_
    (Printer.printLocalDecl placeholder_printer
       {| Printer.getKind := FunctionDecl;
          Printer.getNameAsString := "f";
          Printer.getType := tt;
          Printer.getInit := None |}
       {| Printer.output_ := [Printer.text "before"] |})
  = [Printer.text "before"]
    ++ [Printer.error_marker; Printer.text "unexpected local declaration"].
Proof.
  apply (printLocalDecl_unexpected placeholder_printer
           {| Printer.getKind := FunctionDecl;
              Printer.getNameAsString := "f";
              Printer.getType := tt;
              Printer.getInit := None |}
           {| Printer.output_ := [Printer.text "before"] |}).
  reflexivity.
Defined.

(** ** The template gate *)

(** The gate of [VisitVarDecl] when template emission is disabled: the
    variables that are not templated are the ones skipped, the
    templated ones are classified. *)
Lemma VisitVarDecl_templates_disabled (filter_ : DeclRef -> What)
    (decl : DeclRef) (n : DeclNode) (flags : Flags) (s : State) :
  VisitVarDecl filter_ false decl n flags s =
    if isTemplated n then
      Done tt (with_module (classify filter_ flags (module_ s) decl)
                 (consulted decl s))
    else Done tt s.
Proof.
  unfold VisitVarDecl. simpl. destruct (isTemplated n); simpl;
    [|reflexivity].
  unfold bind. rewrite go_run. unfold classify.
  destruct (filter_ decl); reflexivity.
Qed.

(** C6: the code at the input that breaks it.  With template emission
    disabled, the traversal of [tu_templated_var] emits the templated
    variable 1 (the out-of-line definition of a static member of a
    class template, a variable in a dependent context) and drops the
    ordinary variable 2. *)
Theorem templated_variable_emitted_with_templates_disabled :
  built (build_module tu_templated_var accept_all false 0 empty_module)
  = Some {| definitions_ := [1]; declarations_ := [];
            template_definitions_ := []; template_declarations_ := [];
            asserts_ := [] |}
  /\ (isTemplated <$> tu_templated_var !! 1) = Some true
  /\ (isTemplated <$> tu_templated_var !! 2) = Some false.
Proof. repeat split; vm_compute; reflexivity. Qed.

(** X13.  What the gate does keep out when template emission is
    disabled: no generic template declaration and no function in a
    dependent context is in any of the four lists of a built module. *)
Lemma templates_and_dependent_functions_gated (ast : AST)
    (filter_ : DeclRef -> What) (tu : DeclRef) (s : State) (d : DeclRef)
    (n : DeclNode) :
  enumerators_typed ast ->
  build_module ast filter_ false tu empty_module = Done tt s ->
  ast !! d = Some n ->
  isa TemplateDecl (getKind n) = true
  \/ (isa FunctionDecl (getKind n) = true /\ isDependentContext n = true) ->
  d ∉ output_lists (module_ s).
Proof.
  intros Ht Hrun Hn Hk Hd.
  destruct (built_entry_own_site ast filter_ false tu s d n Ht Hrun Hn)
    as [Hdef Hdecl].
  assert (Hown : exists b, own_site false d n b).
  { destruct (output_lists_split _ _ Hd) as [Hd' | Hd'];
      [exists true; apply Hdef, Hd' | apply Hdecl, Hd']. }
  destruct Hown as [b Hb]. unfold own_site in Hb.
  destruct Hk as [Hk | [Hk Hdep]].
  - destruct (getKind n); try (vm_compute in Hk; discriminate);
      vm_compute in Hb; try contradiction;
      destruct Hb as [Hb _]; discriminate.
  - rewrite Hdep in Hb. simpl in Hb.
    destruct (function_dispatch _ Hk) as [Hr | [Hr | [Hr | Hr]]];
      rewrite Hr in Hb; intuition discriminate.
Qed.

(** Specializations are still visited, with the specialization flag,
    and appear in both partitions: function 2 of [tu_specialization],
    whose generic template 1 is left out. *)
Lemma specialization_emitted_with_templates_disabled :
  built (build_module tu_specialization accept_all false 0 empty_module)
  = Some {| definitions_ := [2; 3]; declarations_ := [];
            template_definitions_ := [2]; template_declarations_ := [];
            asserts_ := [] |}.
Proof. vm_compute. reflexivity. Qed.

(** * Further properties of the traversal *)

(** ** The module only grows *)

Lemma prefix_bucket (b : bool) (l : DeclList) (d : DeclRef) :
  l `prefix_of` (if b then l ++ [d] else l).
Proof. destruct b; [apply prefix_app_r|]; reflexivity. Qed.

Lemma prefix_bucket' (b : bool) (l : DeclList) (d : DeclRef) :
  l `prefix_of` (if b then l else l ++ [d]).
Proof. destruct b; [|apply prefix_app_r]; reflexivity. Qed.

Lemma extends_refl m : extends m m.
Proof. repeat split; reflexivity. Qed.

Lemma extends_trans m1 m2 m3 :
  extends m1 m2 -> extends m2 m3 -> extends m1 m3.
Proof.
  intros (A1 & A2 & A3 & A4 & A5) (B1 & B2 & B3 & B4 & B5).
  repeat split; etransitivity; eassumption.
Qed.

Lemma extends_add_definition d flags m :
  extends m (add_definition d flags m).
Proof.
  rewrite add_definition_eq. unfold extends; simpl.
  rewrite add_decl_fst, add_decl_snd.
  repeat split; try reflexivity;
    [apply prefix_bucket' | apply prefix_bucket].
Qed.

Lemma extends_add_declaration d flags m :
  extends m (add_declaration d flags m).
Proof.
  rewrite add_declaration_eq. unfold extends; simpl.
  rewrite add_decl_fst, add_decl_snd.
  repeat split; try reflexivity;
    [apply prefix_bucket' | apply prefix_bucket].
Qed.

Lemma extends_state_refl s : extends_state s s.
Proof. split; [apply extends_refl | reflexivity]. Qed.

Lemma extends_state_trans s1 s2 s3 :
  extends_state s1 s2 -> extends_state s2 s3 -> extends_state s1 s3.
Proof.
  intros [A1 A2] [B1 B2]. split;
    [eapply extends_trans | etransitivity]; eassumption.
Qed.

Lemma extends_state_go filter_ decl flags definition :
  sound (fun _ => True) extends_state (fun _ => True)
    (go filter_ decl flags definition).
Proof.
  intros s _. rewrite go_run.
  destruct (filter_ decl), definition; split; simpl;
    try apply prefix_app_r; try reflexivity;
    first [ apply extends_refl | apply extends_add_definition
          | apply extends_add_declaration ].
Qed.

Lemma extends_state_emit e :
  sound (fun _ => True) extends_state (fun _ => True) (emit e).
Proof.
  intros s _. split; simpl; [apply extends_refl | apply prefix_app_r].
  reflexivity.
Qed.

Lemma extends_state_mark i :
  sound (fun _ => True) extends_state (fun _ => True) (mark_visited i).
Proof. intros s _. split; simpl; [apply extends_refl | reflexivity]. Qed.

Lemma extends_state_add_assert a :
  sound (fun _ => True) extends_state (fun _ => True)
    (modify_module (add_assert a)).
Proof.
  intros s _. split; simpl; [|reflexivity].
  repeat split; simpl; try reflexivity. apply prefix_app_r. reflexivity.
Qed.

Lemma Visit_extends ast filter_ templates_ fuel d flags s s' :
  Visit ast filter_ templates_ fuel d flags s = Done tt s' ->
  extends_state s s'.
Proof.
  apply (Visit_related ast filter_ templates_ extends_state).
  - apply extends_state_refl.
  - apply extends_state_trans.
  - apply extends_state_emit.
  - apply extends_state_mark.
  - apply extends_state_add_assert.
  - intros. apply extends_state_go.
Qed.

(** X1.  Whatever module [build_module] is handed, it hands it back
    extended: each of the five lists keeps its entries, in their
    order, as a prefix of what it ends with; nothing is removed or
    reordered. *)
Theorem build_module_extends (ast : AST) (filter_ : DeclRef -> What)
    (templates_ : bool) (tu : DeclRef) (m : Module) (s' : State) :
  build_module ast filter_ templates_ tu m = Done tt s' ->
  extends m (module_ s').
Proof.
  intros H.
  assert (Hs : extends_state (initial_state m) s').
  { revert H.
    apply (build_module_related ast filter_ templates_ extends_state).
    - apply extends_state_refl.
    - apply extends_state_trans.
    - apply extends_state_emit.
    - apply extends_state_mark.
    - apply extends_state_add_assert.
    - intros. apply extends_state_go. }
  exact (proj1 Hs).
Qed.

Lemma build_module_extends_witness :
  extends
    {| definitions_ := [7]; declarations_ := [8];
       template_definitions_ := []; template_declarations_ := [];
       asserts_ := [9] |}
    {| definitions_ := [7; 2; 5]; declarations_ := [8];
       template_definitions_ := []; template_declarations_ := [];
       asserts_ := [9] |}.
Proof.
  apply (build_module_extends tu_record_function accept_all false 0
           {| definitions_ := [7]; declarations_ := [8];
              template_definitions_ := []; template_declarations_ := [];
              asserts_ := [9] |}
           (match build_module tu_record_function accept_all false 0
                    {| definitions_ := [7]; declarations_ := [8];
                       template_definitions_ := [];
                       template_declarations_ := [];
                       asserts_ := [9] |} with
            | Done _ s => s
            | Abort _ => initial_state empty_module
            end)).
  vm_compute. reflexivity.
Defined.

(** ** The Filter's verdict and the lists *)

(** X2.  In a built module every entry of a definition list has the
    verdict Definition, and no entry of any list has the verdict
    Nothing: what the Filter rejects is never emitted, and nothing is
    promoted to a definition. *)
Theorem verdict_of_entries (ast : AST) (filter_ : DeclRef -> What)
    (templates_ : bool) (tu : DeclRef) (s : State) (d : DeclRef) :
  build_module ast filter_ templates_ tu empty_module = Done tt s ->
  (d ∈ definitions_ (module_ s) ++ template_definitions_ (module_ s) ->
   filter_ d = DEFINITION)
  /\ (d ∈ output_lists (module_ s) -> filter_ d <> NOTHING).
Proof.
  intros Hrun.
  destruct (build_module_sited _ _ _ _ _ Hrun) as (H1 & H2 & H3 & H4).
  rewrite Forall_forall in H1, H2, H3, H4.
  assert (Hdef : d ∈ definitions_ (module_ s)
                       ++ template_definitions_ (module_ s) ->
                 filter_ d = DEFINITION).
  { intros Hd. apply elem_of_app in Hd.
    destruct Hd as [Hd | Hd]; [apply H1 in Hd | apply H2 in Hd];
      exact (proj1 Hd). }
  split; [exact Hdef|].
  intros Hd. destruct (output_lists_split _ _ Hd) as [Hd' | Hd'].
  - rewrite (Hdef Hd'). discriminate.
  - apply elem_of_app in Hd'.
    assert (He : declaration_entry ast filter_ templates_ d)
      by (destruct Hd'; auto).
    destruct He as [[-> _] | [-> _]]; discriminate.
Qed.

Lemma verdict_of_entries_witness :
  (2 ∈ [] ++ [] -> reject_2 2 = DEFINITION)
  /\ (2 ∈ output_lists
            {| definitions_ := []; declarations_ := [1; 3; 4];
               template_definitions_ := []; template_declarations_ := [];
               asserts_ := [] |} -> reject_2 2 <> NOTHING).
Proof.
  apply (verdict_of_entries tu_enum reject_2 false 0
           (match build_module tu_enum reject_2 false 0 empty_module with
            | Done _ s => s
            | Abort _ => initial_state empty_module
            end) 2).
  vm_compute. reflexivity.
Defined.

Lemma own_site_exclusive templates_ d n :
  own_site templates_ d n true -> own_site templates_ d n false -> False.
Proof.
  unfold own_site, at_definition_or_first_seen.
  destruct (resolve overridden chain_depth (getKind n));
    intuition congruence.
Qed.

(** X3.  In a built module no declaration stands both in a definition
    list and in a declaration list. *)
Theorem exclusive_classification (ast : AST) (filter_ : DeclRef -> What)
    (templates_ : bool) (tu : DeclRef) (s : State) (d : DeclRef) :
  enumerators_typed ast ->
  build_module ast filter_ templates_ tu empty_module = Done tt s ->
  d ∈ definitions_ (module_ s) ++ template_definitions_ (module_ s) ->
  d ∉ declarations_ (module_ s) ++ template_declarations_ (module_ s).
Proof.
  intros Ht Hrun Hdef Hdecl.
  destruct (build_module_sited _ _ _ _ _ Hrun) as (H1 & H2 & H3 & H4).
  rewrite Forall_forall in H1, H2, H3, H4.
  apply elem_of_app in Hdef, Hdecl.
  assert (Hd : definition_entry ast filter_ templates_ d)
    by (destruct Hdef; auto).
  assert (Hc : declaration_entry ast filter_ templates_ d)
    by (destruct Hdecl; auto).
  destruct Hd as [Hf Htrue].
  destruct Hc as [[Hf' _] | [_ Hfalse]]; [congruence|].
  assert (Hn : exists n, ast !! d = Some n)
    by (inversion Hfalse; eauto).
  destruct Hn as [n Hn].
  eapply own_site_exclusive; eapply go_site_own_site; eassumption.
Qed.

Lemma exclusive_classification_witness :
  2 ∉ @nil DeclRef ++ [].
Proof.
  apply (exclusive_classification tu_record_function accept_all false 0
           (match build_module tu_record_function accept_all false 0
                    empty_module with
            | Done _ s => s
            | Abort _ => initial_state empty_module
            end) 2).
  - exact typed_tu_record_function.
  - vm_compute. reflexivity.
  - vm_compute. constructor.
Defined.

Lemma typed_tu_specialization : enumerators_typed tu_specialization.
Proof.
  unfold enumerators_typed. apply (bool_decide_unpack _).
  vm_compute. exact Logic.I.
Defined.

Lemma templates_gated_witness :
  1 ∉ output_lists
        {| definitions_ := [2; 3]; declarations_ := [];
           template_definitions_ := [2]; template_declarations_ := [];
           asserts_ := [] |}.
Proof.
  apply (templates_and_dependent_functions_gated tu_specialization
           accept_all 0
           (match build_module tu_specialization accept_all false 0
                    empty_module with
            | Done _ s => s
            | Abort _ => initial_state empty_module
            end)
           1 (with_specializations [2]
                (node FunctionTemplateDecl "FunctionTemplate" None None []))).
  - exact typed_tu_specialization.
  - vm_compute. reflexivity.
  - vm_compute. reflexivity.
  - left. vm_compute. reflexivity.
Defined.

(** ** The budget of the model does not show *)

Lemma same_refl {A} (m : M A) : same_unless_exhausted m m.
Proof. intros s _. reflexivity. Qed.

Lemma same_bind {A B} (m1 m2 : M A) (k1 k2 : A -> M B) :
  same_unless_exhausted m1 m2 ->
  (forall a, same_unless_exhausted (k1 a) (k2 a)) ->
  same_unless_exhausted (bind m1 k1) (bind m2 k2).
Proof.
  intros Hm Hk s H. unfold bind in *.
  destruct (m1 s) as [a s1|f] eqn:H1.
  - rewrite (Hm s) by (rewrite H1; discriminate). rewrite H1.
    apply Hk, H.
  - rewrite (Hm s) by (rewrite H1; intros [= ->]; apply H; reflexivity).
    rewrite H1. reflexivity.
Qed.

Lemma same_for_each {X} (l : list X) (b1 b2 : X -> M unit) :
  (forall x, same_unless_exhausted (b1 x) (b2 x)) ->
  same_unless_exhausted (for_each l b1) (for_each l b2).
Proof.
  intros Hb. induction l as [|x l IH]; simpl.
  - apply same_refl.
  - apply same_bind; [apply Hb | intros _; exact IH].
Qed.

Lemma same_handler ast filter_ templates_ V1 V2 c d n flags :
  agrees V1 V2 ->
  same_unless_exhausted
    (handler ast filter_ templates_ V1 c d n flags)
    (handler ast filter_ templates_ V2 c d n flags).
Proof.
  intros HV.
  assert (Hc : forall l f, same_unless_exhausted
                 (for_each l (fun i => V1 i f))
                 (for_each l (fun i => V2 i f)))
    by (intros; apply same_for_each; intros; apply HV).
  destruct c; simpl; try apply same_refl.
  - unfold VisitTranslationUnitDecl.
    apply same_bind; [apply same_refl | intros; apply Hc].
  - unfold VisitNamespaceDecl.
    apply same_bind; [apply same_refl | intros; apply Hc].
  - unfold VisitCXXRecordDecl.
    destruct (isImplicit n); [apply same_refl|].
    destruct (negb (in_specialization flags)
              && isa ClassTemplateSpecializationDecl (getKind n));
      [apply same_refl|].
    apply same_bind; [apply Hc | intros; apply same_refl].
  - unfold VisitFunctionTemplateDecl.
    apply same_bind; [apply same_refl | intros; apply Hc].
  - unfold VisitClassTemplateDecl.
    apply same_bind; [|intros; apply Hc].
    destruct templates_; [|apply same_refl].
    destruct (getTemplatedDecl n); [apply HV | apply same_refl].
  - unfold VisitVarTemplateDecl.
    apply same_bind; [apply same_refl | intros; apply Hc].
  - unfold VisitLinkageSpecDecl.
    apply same_bind; [apply same_refl | intros; apply Hc].
  - unfold VisitFriendDecl.
    destruct (getFriendDecl n); [apply HV | apply same_refl].
Qed.

Lemma Visit_one_more ast filter_ templates_ fuel :
  agrees (Visit ast filter_ templates_ fuel)
    (Visit ast filter_ templates_ (S fuel)).
Proof.
  induction fuel as [|fuel IH]; intros d flags s H.
  - rewrite Visit_O in H. rewrite Visit_O, Visit_S.
    case_bool_decide; [reflexivity | contradiction].
  - rewrite Visit_S in H. rewrite (Visit_S _ _ _ (S fuel)), Visit_S.
    case_bool_decide; [reflexivity|].
    unfold Visitor_Visit in *.
    revert H. apply same_bind; [apply same_refl|].
    intros n. apply same_handler, IH.
Qed.

Lemma Visit_more ast filter_ templates_ fuel k d flags s :
  Visit ast filter_ templates_ fuel d flags s <> Abort OutOfFuel ->
  Visit ast filter_ templates_ (k + fuel) d flags s
  = Visit ast filter_ templates_ fuel d flags s.
Proof.
  intros H. induction k as [|k IH]; [reflexivity|].
  simpl. rewrite <- IH.
  apply Visit_one_more. rewrite IH. exact H.
Qed.

(** X4.  The result of a visit does not depend on the recursion budget
    of the model: any two budgets above the number of nodes not yet
    visited give the same result, which is not the exhaustion of the
    budget.  The traversal of a finite graph, cyclic or not, comes to
    an end of its own. *)
Theorem Visit_budget_irrelevant (ast : AST) (filter_ : DeclRef -> What)
    (templates_ : bool) (fuel fuel' : nat) (d : DeclRef) (flags : Flags)
    (s : State) :
  (size (unvisited ast s) < fuel)%nat ->
  (fuel <= fuel')%nat ->
  Visit ast filter_ templates_ fuel' d flags s
  = Visit ast filter_ templates_ fuel d flags s
  /\ Visit ast filter_ templates_ fuel d flags s <> Abort OutOfFuel.
Proof.
  intros Hsize Hle.
  pose proof (Visit_enough_fuel ast filter_ templates_ fuel d flags s Hsize)
    as Hne.
  split; [|exact Hne].
  replace fuel' with ((fuel' - fuel) + fuel)%nat by lia.
  apply Visit_more, Hne.
Qed.

Lemma Visit_budget_irrelevant_witness :
  Visit tu_specialization accept_all false 9 3 no_flags
    (initial_state empty_module)
  = Visit tu_specialization accept_all false 6 3 no_flags
      (initial_state empty_module)
  /\ Visit tu_specialization accept_all false 6 3 no_flags
       (initial_state empty_module) <> Abort OutOfFuel.
Proof.
  apply (Visit_budget_irrelevant tu_specialization accept_all false 6 9 3
           no_flags (initial_state empty_module)).
  - vm_compute. lia.
  - lia.
Defined.

(** ** Static assertions *)

Lemma for_each_cons {X} (x : X) (l : list X) (body : X -> M unit) s :
  for_each (x :: l) body s = bind (body x) (fun _ => for_each l body) s.
Proof. reflexivity. Qed.

Lemma add_asserts_lists l m :
  asserts_ (add_asserts l m) = asserts_ m ++ l
  /\ output_lists (add_asserts l m) = output_lists m.
Proof.
  unfold add_asserts. revert m.
  induction l as [|i l IH]; intros m; simpl.
  - rewrite app_nil_r. split; reflexivity.
  - destruct (IH (add_assert i m)) as [-> ->]. simpl.
    unfold push_back. rewrite <- app_assoc. split; reflexivity.
Qed.

Lemma Visit_static_assert ast filter_ templates_ fuel i flags s :
  getKind <$> ast !! i = Some StaticAssertDecl ->
  i ∉ visited_ s ->
  Visit ast filter_ templates_ (S fuel) i flags s
  = Done tt (with_module (add_assert i (module_ s)) (marked i s)).
Proof.
  intros Hk Hv. rewrite Visit_S.
  rewrite bool_decide_eq_false_2 by exact Hv.
  destruct (ast !! i) as [ni|] eqn:Hi; [|discriminate].
  injection Hk as Hk.
  rewrite (Visitor_Visit_node _ _ _ _ _ _ _ ni Hi), Hk. reflexivity.
Qed.

Lemma for_each_static_asserts ast filter_ templates_ fuel flags l s :
  static_asserts ast l -> NoDup l ->
  (forall i, i ∈ l -> i ∉ visited_ s) ->
  exists s',
    for_each l (fun i => Visit ast filter_ templates_ (S fuel) i flags) s
    = Done tt s'
    /\ module_ s' = add_asserts l (module_ s)
    /\ events_ s' = events_ s.
Proof.
  intros Hl Hnd. revert s.
  induction Hl as [|i l Hi Hl IH]; intros s Hv.
  - eexists. repeat split.
  - apply NoDup_cons in Hnd as [Hil Hnd].
    rewrite for_each_cons. unfold bind.
    rewrite (Visit_static_assert _ _ _ _ _ _ _ Hi)
      by (apply Hv; left).
    destruct (IH Hnd (with_module (add_assert i (module_ s)) (marked i s)))
      as (s' & Hrun & Hm & He).
    { intros j Hj. simpl. intros Hin.
      apply elem_of_union in Hin as [Hin | Hin].
      - apply elem_of_singleton in Hin. subst j. contradiction.
      - apply (Hv j); [right; exact Hj | exact Hin]. }
    exists s'. split; [exact Hrun|]. split; [exact Hm | exact He].
Qed.

(** X5.  A translation unit whose declarations are distinct static
    assertions yields exactly one entry per assertion, appended to the
    assertion list in source order; the four declaration lists are
    left as they were and the Filter is never consulted. *)
Theorem static_asserts_accumulate (ast : AST) (filter_ : DeclRef -> What)
    (templates_ : bool) (tu : DeclRef) (n : DeclNode) (m : Module) :
  ast !! tu = Some n ->
  static_asserts ast (decls n) ->
  NoDup (decls n) ->
  exists s',
    build_module ast filter_ templates_ tu m = Done tt s'
    /\ asserts_ (module_ s') = asserts_ m ++ decls n
    /\ output_lists (module_ s') = output_lists m
    /\ events_ s' = [].
Proof.
  intros Hn Hl Hnd.
  destruct (for_each_static_asserts ast filter_ templates_ (size ast)
              no_flags (decls n) (initial_state m) Hl Hnd)
    as (s' & Hrun & Hm & He).
  { intros i _. simpl. apply not_elem_of_empty. }
  exists s'. unfold build_module, depth_bound, bind, deref. rewrite Hn.
  unfold VisitTranslationUnitDecl, bind, ret. cbv beta iota.
  change (assert (none no_flags) (initial_state m))
    with (Done tt (initial_state m)).
  cbv beta iota. rewrite Hrun.
  split; [reflexivity|]. rewrite Hm. simpl.
  destruct (add_asserts_lists (decls n) m) as [-> ->].
  repeat split. exact He.
Qed.

Lemma static_asserts_accumulate_witness :
  exists s',
    build_module
      (<[0 := node TranslationUnitDecl "TranslationUnit" None None [2; 1]]>
         tu_asserts)
      accept_all false 0 empty_module = Done tt s'
    /\ asserts_ (module_ s') = [] ++ [2; 1]
    /\ output_lists (module_ s') = output_lists empty_module
    /\ events_ s' = [].
Proof.
  apply (static_asserts_accumulate
           (<[0 := node TranslationUnitDecl "TranslationUnit" None None
                     [2; 1]]> tu_asserts)
           accept_all false 0
           (node TranslationUnitDecl "TranslationUnit" None None [2; 1])
           empty_module).
  - vm_compute. reflexivity.
  - repeat constructor; vm_compute; reflexivity.
  - apply (bool_decide_unpack _). vm_compute. exact Logic.I.
Defined.

(** ** Kinds that are dropped *)

(** X6.  A first visit of a declaration whose handler has an empty
    body, or only logs, records the declaration as visited and leaves
    the module alone; the Filter is not consulted.  The trace gains
    nothing for the kinds ignored; for the kinds without support it
    gains exactly one entry, the debug line of [VisitDecl] or the error
    line of [VisitTypeDecl], naming the kind of the declaration. *)
Theorem dropped_kinds_leave_module (ast : AST) (filter_ : DeclRef -> What)
    (templates_ : bool) (fuel : nat) (d : DeclRef) (n : DeclNode)
    (flags : Flags) (s : State) :
  ast !! d = Some n ->
  ignored (resolve overridden chain_depth (getKind n))
  || unsupported (resolve overridden chain_depth (getKind n)) = true ->
  d ∉ visited_ s ->
  Visit ast filter_ templates_ (S fuel) d flags s
  = Done tt {| module_ := module_ s;
               visited_ := {[ d ]} ∪ visited_ s;
               events_ := events_ s ++ dropped_log n |}
  /\ length (dropped_log n)
     = (if unsupported (resolve overridden chain_depth (getKind n))
        then 1 else 0)%nat.
Proof.
  intros Hn Hc Hv. rewrite Visit_S.
  rewrite bool_decide_eq_false_2 by exact Hv.
  rewrite (Visitor_Visit_node _ _ _ _ _ _ _ n Hn).
  unfold dropped_log.
  destruct (resolve overridden chain_depth (getKind n));
    try discriminate; simpl; rewrite ?app_nil_r; split; reflexivity.
Qed.

Lemma dropped_kinds_witness :
  (Visit tu_asserts accept_all false 1 3 no_flags
     (initial_state empty_module)
   = Done tt {| module_ := empty_module;
                visited_ := {[ 3 ]} ∪ ∅;
                events_ := [] |}
   /\ length (@nil Event) = 0%nat)
  /\ (Visit tu_asserts accept_all false 1 4 no_flags
        (initial_state empty_module)
      = Done tt {| module_ := empty_module;
                   visited_ := {[ 4 ]} ∪ ∅;
                   events_ :=
                     [] ++ dropped_log (node LabelDecl "Label" None None [])
                |}
      /\ length (dropped_log (node LabelDecl "Label" None None []))
         = 1%nat).
Proof.
  split.
  - apply (dropped_kinds_leave_module tu_asserts accept_all false 0 3
             (node UsingDirectiveDecl "UsingDirective" None None [])
             no_flags (initial_state empty_module)).
    + vm_compute. reflexivity.
    + vm_compute. reflexivity.
    + simpl. apply not_elem_of_empty.
  - apply (dropped_kinds_leave_module tu_asserts accept_all false 0 4
             (node LabelDecl "Label" None None [])
             no_flags (initial_state empty_module)).
    + vm_compute. reflexivity.
    + vm_compute. reflexivity.
    + simpl. apply not_elem_of_empty.
Defined.

(** ** A specialization reached outside its template *)

Lemma specialization_dispatch k :
  isa ClassTemplateSpecializationDecl k = true ->
  resolve overridden chain_depth k = CXXRecordDecl.
Proof. destruct k; vm_compute; intros H; (reflexivity || discriminate). Qed.

(** X7.  A class template specialization first visited without the
    specialization flag is skipped, and is recorded as visited all the
    same: every later visit, also the one its template makes with the
    flag set, returns at the guard.  Reached first outside its
    template, a specialization is never emitted. *)
Theorem specialization_visited_directly_is_lost (ast : AST)
    (filter_ : DeclRef -> What) (templates_ : bool) (fuel fuel' : nat)
    (d : DeclRef) (n : DeclNode) (flags flags' : Flags) (s : State) :
  ast !! d = Some n ->
  isa ClassTemplateSpecializationDecl (getKind n) = true ->
  in_specialization flags = false ->
  d ∉ visited_ s ->
  Visit ast filter_ templates_ (S fuel) d flags s = Done tt (marked d s)
  /\ Visit ast filter_ templates_ fuel' d flags' (marked d s)
     = Done tt (marked d s).
Proof.
  intros Hn Hk Hf Hv. split.
  - rewrite Visit_S. rewrite bool_decide_eq_false_2 by exact Hv.
    rewrite (Visitor_Visit_node _ _ _ _ _ _ _ n Hn).
    rewrite (specialization_dispatch _ Hk). simpl.
    unfold VisitCXXRecordDecl. rewrite Hf, Hk. simpl.
    destruct (isImplicit n); reflexivity.
  - apply Visit_seen. simpl. apply elem_of_union. left.
    apply elem_of_singleton. reflexivity.
Qed.

Lemma specialization_visited_directly_witness :
  (Visit tu_specialization_first accept_all false 3 2 no_flags
     (initial_state empty_module)
   = Done tt (marked 2 (initial_state empty_module))
   /\ Visit tu_specialization_first accept_all false 3 2
        (set_specialization no_flags)
        (marked 2 (initial_state empty_module))
      = Done tt (marked 2 (initial_state empty_module)))
  /\ built (build_module tu_specialization_first accept_all false 0
              empty_module)
     = Some empty_module.
Proof.
  split.
  - apply (specialization_visited_directly_is_lost
             tu_specialization_first accept_all false 2 3 2
             (node ClassTemplateSpecializationDecl
                "ClassTemplateSpecialization" (Some 2) None [])
             no_flags (set_specialization no_flags)
             (initial_state empty_module)).
    + vm_compute. reflexivity.
    + vm_compute. reflexivity.
    + reflexivity.
    + simpl. apply not_elem_of_empty.
  - vm_compute. reflexivity.
Defined.

(** ** Enums *)




(** ** Functions away from their definition *)

(** X9.  At an occurrence of a function that is not its definition,
    [VisitFunctionDecl] finishes without handing any comment to the
    SpecCollector and without looking at the function's children; the
    definition lists stay as they are, and the Filter is consulted at
    most once. *)
Theorem function_away_from_definition (ast : AST)
    (filter_ : DeclRef -> What) (templates_ : bool) (decl : DeclRef)
    (n : DeclNode) (flags : Flags) (s : State) :
  getDefinition n <> Some decl ->
  exists s',
    VisitFunctionDecl ast filter_ templates_ decl n flags s = Done tt s'
    /\ definitions_ (module_ s') = definitions_ (module_ s)
    /\ template_definitions_ (module_ s')
       = template_definitions_ (module_ s)
    /\ (events_ s' = events_ s
        \/ events_ s' = events_ s ++ [ShouldInclude decl]).
Proof.
  intros Hne. unfold VisitFunctionDecl.
  destruct (negb templates_ && isDependentContext n);
    [exists s; auto|].
  rewrite bool_decide_eq_false_2 by exact Hne.
  destruct (bool_decide (getDefinition n = None)
            && bool_decide (getPreviousDecl n = None));
    [|exists s; auto].
  unfold bind. rewrite go_run.
  destruct (filter_ decl); eexists; (split; [reflexivity|]);
    simpl; rewrite ?add_declaration_eq; simpl; auto.
Qed.

Lemma function_away_from_definition_witness :
  exists s',
    VisitFunctionDecl tu_enum accept_all false 4
      (commented "spec" (node FunctionDecl "Function" None None []))
      no_flags (initial_state empty_module) = Done tt s'
    /\ definitions_ (module_ s') = []
    /\ template_definitions_ (module_ s') = []
    /\ (events_ s' = [] \/ events_ s' = [] ++ [ShouldInclude 4]).
Proof.
  apply (function_away_from_definition tu_enum accept_all false 4
           (commented "spec" (node FunctionDecl "Function" None None []))
           no_flags (initial_state empty_module)).
  simpl. discriminate.
Defined.

(** ** What a container visits *)

Lemma for_each_Visit_marks ast filter_ templates_ fuel flags l s s' :
  for_each l (fun i => Visit ast filter_ templates_ fuel i flags) s
  = Done tt s' ->
  visited_ s ⊆ visited_ s' /\ forall i, i ∈ l -> i ∈ visited_ s'.
Proof.
  revert s. induction l as [|i l IH]; intros s.
  - simpl. intros [= <-]. split; [reflexivity|].
    intros i Hi. inversion Hi.
  - rewrite for_each_cons. unfold bind.
    destruct (Visit ast filter_ templates_ fuel i flags s) as [[] s1|f]
      eqn:Hi; [|discriminate].
    intros Hrest. destruct (IH _ Hrest) as [Hsub Hall].
    pose proof (Visit_grows _ _ _ _ _ _ _ _ Hi) as Hg.
    pose proof (Visit_marks _ _ _ _ _ _ _ _ Hi) as Hm.
    split; [etransitivity; eassumption|].
    intros j Hj. apply elem_of_cons in Hj as [-> | Hj];
      [apply Hsub, Hm | apply Hall, Hj].
Qed.

(** X10.  When [build_module] finishes, every declaration of the
    translation unit has been through the guarded [Visit]: each is in
    the visited set, so each was dispatched exactly once. *)
Theorem top_level_declarations_visited (ast : AST)
    (filter_ : DeclRef -> What) (templates_ : bool) (tu : DeclRef)
    (n : DeclNode) (m : Module) (s' : State) (i : DeclRef) :
  ast !! tu = Some n ->
  build_module ast filter_ templates_ tu m = Done tt s' ->
  i ∈ decls n ->
  i ∈ visited_ s'.
Proof.
  intros Hn Hrun Hi. unfold build_module, bind, deref in Hrun.
  rewrite Hn in Hrun. unfold ret in Hrun. cbv beta iota in Hrun.
  unfold VisitTranslationUnitDecl, bind in Hrun.
  change (assert (none no_flags) (initial_state m))
    with (Done tt (initial_state m)) in Hrun.
  cbv beta iota in Hrun.
  apply for_each_Visit_marks in Hrun as [_ Hall]. apply Hall, Hi.
Qed.

Lemma top_level_declarations_visited_witness :
  4 ∈ visited_
        (match build_module tu_asserts accept_all false 0 empty_module with
         | Done _ s => s
         | Abort _ => initial_state empty_module
         end).
Proof.
  apply (top_level_declarations_visited tu_asserts accept_all false 0
           (node TranslationUnitDecl "TranslationUnit" None None
              [1; 2; 3; 4])
           empty_module _ 4).
  - vm_compute. reflexivity.
  - vm_compute. reflexivity.
  - apply (bool_decide_unpack _). vm_compute. exact Logic.I.
Defined.

(** ** A proof rule that follows the flags

    As the rule for relations above, with the flags of every call kept
    in a set [F] that [set_specialization] preserves, and that
    [set_template] preserves when template emission is enabled. *)
Section Flagged.

Variable ast : AST.
Variable filter_ : DeclRef -> What.
Variable templates_ : bool.
Variable R : State -> State -> Prop.
Variable F : Flags -> Prop.

Local Abbreviation related := (sound (fun _ => True) R (fun _ => True)).

Hypothesis R_refl : forall s, R s s.
Hypothesis R_trans : forall s1 s2 s3, R s1 s2 -> R s2 s3 -> R s1 s3.
Hypothesis F_specialization :
  forall flags, F flags -> F (set_specialization flags).
Hypothesis F_template :
  templates_ = true -> forall flags, F flags -> F (set_template flags).
Hypothesis R_emit : forall e, related (emit e).
Hypothesis R_mark : forall i, related (mark_visited i).
Hypothesis R_add_assert : forall d, related (modify_module (add_assert d)).
Hypothesis R_go :
  forall decl flags definition,
    F flags -> related (go filter_ decl flags definition).

Lemma related_ret {A} (a : A) : related (ret a).
Proof. intros s _. apply R_refl. Qed.

Lemma related_abort {A} f : related (@fail A f).
Proof. intros s _. exact Logic.I. Qed.

Lemma related_bind {A B} (m : M A) (k : A -> M B) :
  related m -> (forall a, related (k a)) -> related (bind m k).
Proof.
  intros Hm Hk s _. unfold bind. specialize (Hm s Logic.I).
  destruct (m s) as [a s1|f]; [|exact Logic.I].
  specialize (Hk a s1 Logic.I).
  destruct (k a s1) as [b s2|f]; [|exact Logic.I].
  eapply R_trans; eassumption.
Qed.

Lemma related_for_each {X} (l : list X) (body : X -> M unit) :
  (forall x, related (body x)) -> related (for_each l body).
Proof.
  intros H. induction l as [|x l IH]; simpl.
  - apply related_ret.
  - apply related_bind; [apply H | intros _; exact IH].
Qed.

Lemma related_if {A} (b : bool) (m1 m2 : M A) :
  (b = true -> related m1) -> (b = false -> related m2) ->
  related (if b then m1 else m2).
Proof. destruct b; auto. Qed.

Lemma related_go_ decl flags definition :
  F flags ->
  related (bind (go filter_ decl flags definition) (fun _ => ret tt)).
Proof.
  intros Hf. apply related_bind; [apply R_go, Hf|].
  intros _. apply related_ret.
Qed.

Lemma related_assert c : related (assert c).
Proof. destruct c; [apply related_ret | apply related_abort]. Qed.

Variable Visit' : DeclRef -> Flags -> M unit.
Hypothesis related_Visit' :
  forall d flags, F flags -> related (Visit' d flags).

Lemma related_generic_then_specializations decl n flags :
  F flags ->
  related
    (bind (if templates_
           then bind (go filter_ decl (set_template flags) true)
                  (fun _ => ret tt)
           else ret tt)
       (fun _ => for_each (specializations n)
                   (fun i => Visit' i (set_specialization flags)))).
Proof.
  intros Hf. apply related_bind.
  - apply related_if; intros Ht; [|apply related_ret].
    apply related_go_, F_template; assumption.
  - intros _. apply related_for_each. intros i.
    apply related_Visit', F_specialization, Hf.
Qed.

Lemma related_VisitTagDecl decl n flags :
  F flags -> related (VisitTagDecl filter_ decl n flags).
Proof.
  intros Hf. unfold VisitTagDecl.
  destruct (bool_decide (getDefinition n = Some decl));
    [apply related_go_, Hf|].
  destruct (bool_decide (getDefinition n = None)
            && bool_decide (getPreviousDecl n = None));
    [apply related_go_, Hf | apply related_ret].
Qed.

Lemma related_VisitFunctionDecl decl n flags :
  F flags ->
  related (VisitFunctionDecl ast filter_ templates_ decl n flags).
Proof.
  intros Hf. unfold VisitFunctionDecl.
  destruct (negb templates_ && isDependentContext n);
    [apply related_ret|].
  destruct (bool_decide (getDefinition n = Some decl)).
  - apply related_bind.
    { destruct (getRawCommentForDeclNoCache n);
        [apply R_emit | apply related_ret]. }
    intros _. apply related_bind; [apply R_go, Hf|].
    intros w. destruct (What_ge w DEFINITION); [|apply related_ret].
    apply related_for_each. intros i. unfold scan_static_local.
    apply related_bind.
    { unfold deref. destruct (ast !! i);
        [apply related_ret | apply related_abort]. }
    intros ni. destruct (isa VarDecl (getKind ni)); [|apply related_ret].
    destruct (isStaticLocal ni); [|apply related_ret].
    apply related_go_, Hf.
  - destruct (bool_decide (getDefinition n = None)
              && bool_decide (getPreviousDecl n = None));
      [apply related_go_, Hf | apply related_ret].
Qed.

Lemma related_VisitCXXMethodDecl decl n flags :
  F flags ->
  related (VisitCXXMethodDecl ast filter_ templates_ decl n flags).
Proof.
  intros Hf. unfold VisitCXXMethodDecl.
  destruct (isDeleted n);
    [apply related_ret | apply related_VisitFunctionDecl, Hf].
Qed.

Lemma related_handler c d n flags :
  F flags ->
  related (handler ast filter_ templates_ Visit' c d n flags).
Proof.
  intros Hf.
  assert (Hc : related (for_each (decls n) (fun i => Visit' i flags)))
    by (apply related_for_each; intros; apply related_Visit', Hf).
  destruct c; simpl;
    try apply R_emit; try apply related_ret;
    try apply R_add_assert;
    try (apply related_go_, Hf);
    try (apply related_VisitTagDecl, Hf);
    try (apply related_VisitFunctionDecl, Hf);
    try (apply related_VisitCXXMethodDecl, Hf);
    try (apply related_generic_then_specializations, Hf);
    try (apply related_bind; [apply related_assert | intros _; exact Hc]).
  - unfold VisitEnumDecl.
    destruct (negb (isCanonicalDecl n)); [apply related_ret|].
    apply related_bind; [apply R_go, Hf|].
    intros _. apply related_for_each. intros i. apply related_go_, Hf.
  - unfold VisitCXXRecordDecl.
    destruct (isImplicit n); [apply related_ret|].
    destruct (negb (in_specialization flags)
              && isa ClassTemplateSpecializationDecl (getKind n));
      [apply related_ret|].
    apply related_bind; [exact Hc|].
    intros _. apply related_VisitTagDecl, Hf.
  - unfold VisitCXXConstructorDecl.
    destruct (isDeleted n);
      [apply related_ret | apply related_VisitCXXMethodDecl, Hf].
  - unfold VisitCXXDestructorDecl.
    destruct (isDeleted n);
      [apply related_ret | apply related_VisitCXXMethodDecl, Hf].
  - unfold VisitVarDecl.
    destruct (negb templates_ && negb (isTemplated n));
      [apply related_ret | apply related_go_, Hf].
  - unfold VisitClassTemplateDecl. apply related_bind.
    + apply related_if; intros Ht; [|apply related_ret].
      destruct (getTemplatedDecl n); [|apply related_abort].
      apply related_Visit', F_template; assumption.
    + intros _. apply related_for_each. intros i.
      apply related_Visit', F_specialization, Hf.
  - unfold VisitFriendDecl.
    destruct (getFriendDecl n);
      [apply related_Visit', Hf | apply related_ret].
Qed.

End Flagged.

Lemma Visit_flagged ast filter_ templates_
    (R : State -> State -> Prop) (F : Flags -> Prop) :
  (forall s, R s s) ->
  (forall s1 s2 s3, R s1 s2 -> R s2 s3 -> R s1 s3) ->
  (forall flags, F flags -> F (set_specialization flags)) ->
  (templates_ = true -> forall flags, F flags -> F (set_template flags)) ->
  (forall e, sound (fun _ => True) R (fun _ => True) (emit e)) ->
  (forall i, sound (fun _ => True) R (fun _ => True) (mark_visited i)) ->
  (forall d, sound (fun _ => True) R (fun _ => True)
               (modify_module (add_assert d))) ->
  (forall decl flags definition, F flags ->
     sound (fun _ => True) R (fun _ => True)
       (go filter_ decl flags definition)) ->
  forall fuel d flags, F flags ->
    sound (fun _ => True) R (fun _ => True)
      (Visit ast filter_ templates_ fuel d flags).
Proof.
  intros Hrefl Htrans Hspec Htmpl Hemit Hmark Hassert Hgo.
  induction fuel as [|fuel IH]; intros d flags Hf s _.
  - rewrite Visit_O. case_bool_decide; [apply Hrefl | exact Logic.I].
  - rewrite Visit_S. case_bool_decide; [apply Hrefl|].
    destruct (ast !! d) as [n|] eqn:Hd;
      [rewrite (Visitor_Visit_node _ _ _ _ _ _ _ n Hd)
      |rewrite Visitor_Visit_dangling by exact Hd; exact Logic.I].
    pose proof (related_handler ast filter_ templates_ R F Hrefl Htrans
                  Hspec Htmpl Hemit Hassert Hgo
                  (Visit ast filter_ templates_ fuel) IH
                  (resolve overridden chain_depth (getKind n)) d n flags
                  Hf (marked d s) Logic.I) as Hh.
    destruct (handler _ _ _ _ _ d n flags (marked d s)) as [[] s'|f];
      [|exact Logic.I].
    eapply Htrans; [|exact Hh]. exact (Hmark d s Logic.I).
Qed.

(** ** The template partitions when template emission is disabled *)

Lemma duplicate_bucket (main tmpl : DeclList) (d : DeclRef) (b : bool) :
  tmpl ⊆ main -> (if b then tmpl ++ [d] else tmpl) ⊆ main ++ [d].
Proof.
  intros H x Hx. apply elem_of_app.
  destruct b; [apply elem_of_app in Hx as [Hx | Hx]|]; auto.
Qed.

Lemma duplicate_go filter_ decl flags definition :
  in_template flags = false ->
  sound (fun _ => True)
    (fun s s' => template_lists_duplicate (module_ s) ->
                 template_lists_duplicate (module_ s'))
    (fun _ => True) (go filter_ decl flags definition).
Proof.
  intros Hf s _. rewrite go_run.
  destruct (filter_ decl), definition; simpl; try tauto;
    intros [H1 H2]; rewrite ?add_definition_eq, ?add_declaration_eq;
    split; simpl; rewrite ?add_decl_fst, ?add_decl_snd, ?Hf; simpl;
    try assumption; apply duplicate_bucket; assumption.
Qed.

(** X11.  With template emission disabled the traversal never sets the
    template flag, so nothing is pushed on a template list alone:
    every entry of the template definition list is also in the
    definition list, and every entry of the template declaration list
    is also in the declaration list.  The template partitions then hold
    only the second copy of what was visited as a specialization. *)
Theorem template_lists_duplicate_when_disabled (ast : AST)
    (filter_ : DeclRef -> What) (tu : DeclRef) (m : Module) (s : State) :
  template_lists_duplicate m ->
  build_module ast filter_ false tu m = Done tt s ->
  template_lists_duplicate (module_ s).
Proof.
  intros Hm Hrun. unfold build_module, bind, deref in Hrun.
  destruct (ast !! tu) as [n|]; [|discriminate].
  unfold ret in Hrun. cbv beta iota in Hrun.
  pose (keeps := fun s s' : State =>
                   template_lists_duplicate (module_ s) ->
                   template_lists_duplicate (module_ s')).
  pose (unset := fun flags : Flags => in_template flags = false).
  assert (Hv : forall fuel d flags, unset flags ->
                 sound (fun _ => True) keeps (fun _ => True)
                   (Visit ast filter_ false fuel d flags)).
  { apply (Visit_flagged ast filter_ false keeps unset);
      unfold keeps, unset; try (intros; tauto); try discriminate.
    - intros e s0 _. simpl. tauto.
    - intros i s0 _. simpl. tauto.
    - intros d s0 _. simpl. tauto.
    - intros. apply duplicate_go. assumption. }
  assert (Hh : sound (fun _ => True) keeps (fun _ => True)
                 (handler ast filter_ false
                    (Visit ast filter_ false (depth_bound ast))
                    TranslationUnitDecl tu n no_flags)).
  { apply (related_handler ast filter_ false keeps unset);
      unfold keeps, unset; try (intros; tauto); try discriminate.
    - intros e s0 _. simpl. tauto.
    - intros d s0 _. simpl. tauto.
    - intros. apply duplicate_go. assumption.
    - intros. apply Hv. assumption. }
  specialize (Hh (initial_state m) Logic.I).
  change (handler ast filter_ false
            (Visit ast filter_ false (depth_bound ast))
            TranslationUnitDecl tu n no_flags (initial_state m))
    with (VisitTranslationUnitDecl
            (Visit ast filter_ false (depth_bound ast))
            tu n no_flags (initial_state m)) in Hh.
  rewrite Hrun in Hh. apply Hh. exact Hm.
Qed.

Lemma template_lists_duplicate_witness :
  template_lists_duplicate
    {| definitions_ := [2; 3]; declarations_ := [];
       template_definitions_ := [2]; template_declarations_ := [];
       asserts_ := [] |}.
Proof.
  apply (template_lists_duplicate_when_disabled tu_specialization
           accept_all 0 empty_module
           (match build_module tu_specialization accept_all false 0
                    empty_module with
            | Done _ s => s
            | Abort _ => initial_state empty_module
            end)).
  - split; simpl; reflexivity.
  - vm_compute. reflexivity.
Defined.

(** * Further properties of the printer *)

Lemma paren_depth_app n a b :
  paren_depth n (a ++ b)
  = match paren_depth n a with
    | Some k => paren_depth k b
    | None => None
    end.
Proof.
  revert n. induction a as [|i a IH]; intros n; [reflexivity|].
  destruct i; simpl; try apply IH.
  destruct n; [reflexivity | apply IH].
Qed.

(** X12.  Whatever the declaration, [printLocalDecl] keeps what was
    written and appends a sequence of items whose parentheses match,
    provided those of the type and of the initializer do: the term
    written is delimited by itself, with an initializer and without
    one, and so is the error marker with its message. *)
Theorem printLocalDecl_balanced {QualType Expr : Type}
    (cprint : Printer.ClangPrinter QualType Expr)
    (decl : Printer.LocalDecl QualType Expr) (print : Printer.CoqPrinter) :
  balanced (Printer.printQualType cprint (Printer.getType decl)) ->
  (forall init, Printer.getInit decl = Some init ->
                balanced (Printer.printExpr cprint init)) ->
  exists items,
    Printer.output_ (Printer.printLocalDecl cprint decl print)
    = Printer.output_ print ++ items
    /\ balanced items.
Proof.
  intros Ht He. unfold Printer.printLocalDecl, Printer.Visit.
  assert (Hvar : exists items,
             Printer.output_ (Printer.VisitVarDecl decl print cprint)
             = Printer.output_ print ++ items /\ balanced items).
  { exists (local_decl_items cprint decl).
    split; [apply VisitVarDecl_items|].
    intros n. unfold local_decl_items.
    rewrite paren_depth_app. cbn [paren_depth].
    rewrite paren_depth_app, Ht.
    rewrite paren_depth_app. cbn [paren_depth].
    rewrite paren_depth_app.
    destruct (Printer.getInit decl) as [init|]; [|reflexivity].
    rewrite paren_depth_app. cbn [paren_depth].
    rewrite paren_depth_app, (He init eq_refl). reflexivity. }
  assert (Herr : exists items,
             Printer.output_ (Printer.VisitDecl decl print cprint)
             = Printer.output_ print ++ items /\ balanced items).
  { exists [Printer.error_marker;
            Printer.text "unexpected local declaration"].
    split; [|intros n; reflexivity].
    unfold Printer.VisitDecl, Printer.error, Printer.output. simpl.
    rewrite <- app_assoc. reflexivity. }
  destruct (resolve Printer.overridden chain_depth (Printer.getKind decl));
    assumption.
Qed.

Lemma printLocalDecl_balanced_witness :
  exists items,
    Printer.output_
      (Printer.printLocalDecl placeholder_printer (local_x (Some tt))
         empty_output)
    = [] ++ items
    /\ balanced items.
Proof.
  apply (printLocalDecl_balanced placeholder_printer (local_x (Some tt))
           empty_output).
  - intros n. reflexivity.
  - intros init _ n. reflexivity.
Defined.
